(** * The QuickJS bridge of [examples/ffi.c]: a shallow embedding

    [ffi.c] is a thin C layer between a host language and the QuickJS
    engine.  It boxes engine values on the C heap, keeps one
    [RuntimeOpaque] record per runtime (dispatch channel, timeout, start
    of the running call) and routes engine callbacks (module loading,
    promise rejections, finalizers, interrupt polls) to the host through
    a single channel function.

    The embedding is a state-and-fault monad over an explicit [World]:
    the C heap cells the bridge allocates, the engine state the bridge
    reads and writes through the engine API, and the list of channel
    invocations made so far.  Dereferencing a pointer that is not a live
    cell is a [Fault], and so is every other undefined behaviour that is
    modelled. *)

From Stdlib Require Import ZArith Lia.
From stdpp Require Import base gmap strings.

Local Open Scope Z_scope.

(** ** Pointers and heaps *)

(** A pointer is an address; the null pointer is address [0]. *)
Abbreviation ptr := N.
Definition NULL : ptr := 0%N.

(** [malloc] returns an address that is not null and not in use.
    Allocation is taken to succeed: an exhausted C heap, on which the
    source would write through the null pointer it gets, is outside the
    model. *)
Definition malloc {A : Type} (h : gmap N A) : ptr :=
  fresh ({[NULL]} ∪ dom h).

(** ** Engine values *)

(** [JSValue], the engine's tagged value.  Only the tags [ffi.c] tells
    apart are kept: the immediate values, and the two reference-counted
    pointers the bridge handles (objects and compiled modules). *)
Inductive JSValue : Type :=
| JS_UNDEFINED
| JS_NULL
| JS_EXCEPTION
| JS_BOOL (b : bool)
| JS_INT (i : Z)
| JS_OBJECT (p : ptr)
| JS_MODULE (p : ptr).

Definition JS_IsException (v : JSValue) : bool :=
  match v with JS_EXCEPTION => true | _ => false end.

(** [JS_VALUE_HAS_REF_COUNT]: the value points to a reference-counted
    cell of the engine heap. *)
Definition JS_VALUE_HAS_REF_COUNT (v : JSValue) : bool :=
  match v with JS_OBJECT _ | JS_MODULE _ => true | _ => false end.

(** [JS_VALUE_GET_PTR]; immediate values carry no pointer. *)
Definition JS_VALUE_GET_PTR (v : JSValue) : ptr :=
  match v with JS_OBJECT p | JS_MODULE p => p | _ => NULL end.

(** A reference-counted cell of the engine heap.  [obj_rt] is the runtime
    whose object list the cell is linked in; [class_id] is [0]
    (the invalid class) for cells that are not class instances. *)
Record JSObject : Type := mkObject {
  obj_rt : ptr;
  ref_count : Z;
  class_id : N;
  obj_opaque : ptr
}.

(** The only finalizer [ffi.c] ever registers. *)
Inductive JSClassFinalizer : Type := fn_jsNewClass_finalizer.

Record JSClassDef : Type := mkClassDef {
  class_name : string;
  finalizer : option JSClassFinalizer
}.

Inductive JSErrorKind : Type := JS_INTERNAL_ERROR | JS_OUT_OF_MEMORY.

(** An engine runtime.  [rt_opaque] is the side-channel slot
    ([JS_SetRuntimeOpaque]); [rt_oom] abstracts the allocator of the
    runtime: when set, the next engine allocation fails.  The three hook
    fields hold the opaque pointer each bridge callback was installed
    with. *)
Record JSRuntime : Type := mkRuntime {
  rt_opaque : ptr;
  class_array : gmap N JSClassDef;
  current_exception : option (JSErrorKind * string);
  rt_oom : bool;
  rt_promise_tracker : option ptr;
  rt_module_loader : option ptr;
  rt_interrupt_handler : option ptr
}.

(** ** The dispatch channel *)

Inductive JSChannelType : Type :=
| JSChannelType_METHON
| JSChannelType_MODULE
| JSChannelType_PROMISE_TRACK
| JSChannelType_FREE_OBJECT.

(** What the [void *argv] of a channel call points to. *)
Inductive ChannelArg : Type :=
| Arg_module_name (name : string)
| Arg_reason (reason : JSValue)
| Arg_opaque (opaque : ptr).

(** What the [void *] a channel call returns points to. *)
Inductive ChannelRet : Type :=
| Ret_null
| Ret_cstr (s : string)
| Ret_box (p : ptr).

(** The host callback: [void *channel(JSContext *ctx, size_t type, void *argv)]. *)
Definition JSChannel : Type := ptr -> JSChannelType -> ChannelArg -> ChannelRet.

(** One invocation of the channel, as the host observes it. *)
Record Dispatch : Type := mkDispatch {
  d_ctx : ptr;
  d_type : JSChannelType;
  d_argv : ChannelArg
}.

(** ** The runtime context *)

(** [RuntimeOpaque] of [ffi.c]; [timeout] and [start] are [int64_t]. *)
Record RuntimeOpaque : Type := mkRuntimeOpaque {
  channel : JSChannel;
  timeout : Z;
  start : Z
}.

Definition set_start (s : Z) (op : RuntimeOpaque) : RuntimeOpaque :=
  {| channel := channel op; timeout := timeout op; start := s |}.

(** ** The world *)

Record World : Type := mkWorld {
  rto_heap : gmap N RuntimeOpaque;   (* malloc'ed RuntimeOpaque cells *)
  boxes : gmap N JSValue;            (* malloc'ed JSValue cells *)
  runtimes : gmap N JSRuntime;       (* live engine runtimes *)
  contexts : gmap N ptr;             (* live engine contexts, with their runtime *)
  objects : gmap N JSObject;         (* reference-counted engine cells *)
  js_class_id_alloc : N;             (* the engine's process-wide class id counter *)
  dispatched : list Dispatch         (* channel invocations, oldest first *)
}.

Definition with_rto_heap (f : gmap N RuntimeOpaque -> gmap N RuntimeOpaque) (w : World) : World :=
  mkWorld (f (rto_heap w)) (boxes w) (runtimes w) (contexts w) (objects w)
          (js_class_id_alloc w) (dispatched w).

Definition with_boxes (f : gmap N JSValue -> gmap N JSValue) (w : World) : World :=
  mkWorld (rto_heap w) (f (boxes w)) (runtimes w) (contexts w) (objects w)
          (js_class_id_alloc w) (dispatched w).

Definition with_runtimes (f : gmap N JSRuntime -> gmap N JSRuntime) (w : World) : World :=
  mkWorld (rto_heap w) (boxes w) (f (runtimes w)) (contexts w) (objects w)
          (js_class_id_alloc w) (dispatched w).

Definition with_contexts (f : gmap N ptr -> gmap N ptr) (w : World) : World :=
  mkWorld (rto_heap w) (boxes w) (runtimes w) (f (contexts w)) (objects w)
          (js_class_id_alloc w) (dispatched w).

Definition with_objects (f : gmap N JSObject -> gmap N JSObject) (w : World) : World :=
  mkWorld (rto_heap w) (boxes w) (runtimes w) (contexts w) (f (objects w))
          (js_class_id_alloc w) (dispatched w).

Definition with_class_id_alloc (n : N) (w : World) : World :=
  mkWorld (rto_heap w) (boxes w) (runtimes w) (contexts w) (objects w)
          n (dispatched w).

Definition with_dispatched (f : list Dispatch -> list Dispatch) (w : World) : World :=
  mkWorld (rto_heap w) (boxes w) (runtimes w) (contexts w) (objects w)
          (js_class_id_alloc w) (f (dispatched w)).

(** ** The monad: state passing, with faults *)

Inductive Res (A : Type) : Type :=
| Ok (a : A) (w : World)
| Fault.
Arguments Ok {A} a w.
Arguments Fault {A}.

Definition M (A : Type) : Type := World -> Res A.

Definition ret {A : Type} (a : A) : M A := fun w => Ok a w.

Definition bind {A B : Type} (m : M A) (k : A -> M B) : M B :=
  fun w => match m w with
           | Ok a w' => k a w'
           | Fault => Fault
           end.

Definition fault {A : Type} : M A := fun _ => Fault.

Notation "'let*' x ':=' m 'in' k" := (bind m (fun x => k))
  (at level 10, x pattern, m at level 100, k at level 200).
Notation "m ';;;' k" := (bind m (fun _ => k))
  (at level 100, k at level 200, right associativity).

(** [*p] on a cell of heap [h]: a fault unless [p] is live.  No cell is
    ever allocated at the null address, [malloc] does not return it. *)
Definition deref {A : Type} (h : World -> gmap N A) (p : ptr) : M A :=
  fun w => match h w !! p with
           | Some a => Ok a w
           | None => Fault
           end.

(** [modify f]: an update of the world that cannot fail. *)
Definition modify (f : World -> World) : M unit := fun w => Ok tt (f w).

(** ** The engine API used by the bridge *)

(** Modelled from the spec: the engine's [JS_GetRuntime] (the engine is
    outside src/); it reads the runtime a live context belongs to. *)
Definition JS_GetRuntime (ctx : ptr) : M ptr := deref contexts ctx.

(** Modelled from the spec: the engine's [JS_GetRuntimeOpaque], the read
    of the runtime's side-channel slot. *)
Definition JS_GetRuntimeOpaque (rt : ptr) : M ptr :=
  let* r := deref runtimes rt in ret (rt_opaque r).

Definition set_rt_opaque (p : ptr) (r : JSRuntime) : JSRuntime :=
  mkRuntime p (class_array r) (current_exception r) (rt_oom r)
            (rt_promise_tracker r) (rt_module_loader r) (rt_interrupt_handler r).

(** Modelled from the spec: the engine's [JS_SetRuntimeOpaque], the write
    of the runtime's side-channel slot. *)
Definition JS_SetRuntimeOpaque (rt : ptr) (p : ptr) : M unit :=
  let* r := deref runtimes rt in
  modify (with_runtimes <[rt := set_rt_opaque p r]>).

(** Modelled from the spec: the engine's [JS_UpdateStackTop]; it touches
    the runtime, whose stack bound is not part of the world. *)
Definition JS_UpdateStackTop (rt : ptr) : M unit :=
  let* _ := deref runtimes rt in ret tt.

(** Modelled from the spec: the engine's [JS_GetClassID]; the class of an
    object, the invalid class [0] for any other value. *)
Definition JS_GetClassID (v : JSValue) : M N :=
  match v with
  | JS_OBJECT p => let* o := deref objects p in ret (class_id o)
  | _ => ret 0%N
  end.

(** Modelled from the spec: the engine's [JS_GetOpaque] ("returns whatever
    was last attached, or a null sentinel"): the opaque pointer of an
    object of class [cid], null for anything else. *)
Definition JS_GetOpaque (v : JSValue) (cid : N) : M ptr :=
  match v with
  | JS_OBJECT p =>
      let* o := deref objects p in
      if decide (class_id o = cid) then ret (obj_opaque o) else ret NULL
  | _ => ret NULL
  end.

Definition set_obj_opaque (q : ptr) (o : JSObject) : JSObject :=
  mkObject (obj_rt o) (ref_count o) (class_id o) q.

Definition set_ref_count (n : Z) (o : JSObject) : JSObject :=
  mkObject (obj_rt o) n (class_id o) (obj_opaque o).

(** Modelled from the spec: the engine's [JS_SetOpaque]; it stores the
    opaque pointer in an object and ignores any other value. *)
Definition JS_SetOpaque (v : JSValue) (q : ptr) : M unit :=
  match v with
  | JS_OBJECT p =>
      let* o := deref objects p in
      modify (with_objects <[p := set_obj_opaque q o]>)
  | _ => ret tt
  end.

(** [JSClassID] is [uint32_t]. *)
Definition wrap32 (n : N) : N := (n mod 2 ^ 32)%N.

(** Modelled from the spec: the engine's [JS_NewClassID] on the slot
    [*pclass_id]; the result is the new content of the slot.  A zero slot
    is filled from the process-wide counter, which is then incremented;
    a non-zero slot is left as it is. *)
Definition JS_NewClassID (slot : N) : M N :=
  if decide (slot = 0%N) then
    fun w => Ok (js_class_id_alloc w)
                (with_class_id_alloc (wrap32 (js_class_id_alloc w + 1)) w)
  else ret slot.

(** Modelled from the spec: the engine's [JS_IsRegisteredClass]. *)
Definition JS_IsRegisteredClass (rt : ptr) (cid : N) : M bool :=
  let* r := deref runtimes rt in
  ret (bool_decide (is_Some (class_array r !! cid))).

Definition set_class_array (c : gmap N JSClassDef) (r : JSRuntime) : JSRuntime :=
  mkRuntime (rt_opaque r) c (current_exception r) (rt_oom r)
            (rt_promise_tracker r) (rt_module_loader r) (rt_interrupt_handler r).

(** Modelled from the spec: the engine's [JS_NewClass]; it fails with [-1]
    when the class is already registered in the runtime or when the
    runtime cannot allocate, and otherwise records the definition and
    returns [0]. *)
Definition JS_NewClass (rt : ptr) (cid : N) (def : JSClassDef) : M Z :=
  let* r := deref runtimes rt in
  if rt_oom r then ret (-1)
  else if bool_decide (is_Some (class_array r !! cid)) then ret (-1)
  else modify (with_runtimes <[rt := set_class_array (<[cid := def]> (class_array r)) r]>) ;;;
       ret 0.

Definition set_current_exception (e : option (JSErrorKind * string)) (r : JSRuntime) : JSRuntime :=
  mkRuntime (rt_opaque r) (class_array r) e (rt_oom r)
            (rt_promise_tracker r) (rt_module_loader r) (rt_interrupt_handler r).

(** Modelled from the spec: the engine's [JS_ThrowInternalError]; it
    leaves an internal error with the formatted message pending and
    returns the exception marker. *)
Definition JS_ThrowInternalError (ctx : ptr) (msg : string) : M JSValue :=
  let* rt := JS_GetRuntime ctx in
  let* r := deref runtimes rt in
  modify (with_runtimes <[rt := set_current_exception (Some (JS_INTERNAL_ERROR, msg)) r]>) ;;;
  ret JS_EXCEPTION.

(** Modelled from the spec: the engine's [JS_NewObjectClass] ("object
    construction raised an exception"): a fresh object of the class with
    one reference and no opaque data, or the exception marker when the
    runtime cannot allocate. *)
Definition JS_NewObjectClass (ctx : ptr) (cid : N) : M JSValue :=
  let* rt := JS_GetRuntime ctx in
  let* r := deref runtimes rt in
  if rt_oom r then
    modify (with_runtimes <[rt := set_current_exception (Some (JS_OUT_OF_MEMORY, "out of memory"%string)) r]>) ;;;
    ret JS_EXCEPTION
  else
    fun w => let p := malloc (objects w) in
             Ok (JS_OBJECT p) (with_objects <[p := mkObject rt 1 cid NULL]> w).

(** ** The bridge: channel calls and the finalizer *)

(** [op->channel(ctx, type, argv)]: the host function is run and the
    invocation is recorded. *)
Definition call_channel (op : RuntimeOpaque) (ctx : ptr) (ty : JSChannelType)
    (argv : ChannelArg) : M ChannelRet :=
  fun w => Ok (channel op ctx ty argv)
              (with_dispatched (fun l => l ++ [mkDispatch ctx ty argv]) w).

(** [jsNewClass_finalizer]; the runtime pointer is passed to the channel
    in the place of a context, as the source casts it. *)
Definition jsNewClass_finalizer (rt : ptr) (obj : JSValue) : M unit :=
  let* classid := JS_GetClassID obj in
  let* opaque := JS_GetOpaque obj classid in
  let* runtimeOpaque := JS_GetRuntimeOpaque rt in
  if decide (runtimeOpaque = NULL) then ret tt
  else
    let* op := deref rto_heap runtimeOpaque in
    let* _ := call_channel op rt JSChannelType_FREE_OBJECT (Arg_opaque opaque) in
    ret tt.

(** The value the engine hands to a finalizer is not a dangling pointer. *)
Definition live_value (w : World) (v : JSValue) : Prop :=
  forall p, v = JS_OBJECT p -> is_Some (objects w !! p).

(** ** The engine API, continued: releasing values and runtimes *)

Definition call_finalizer (f : JSClassFinalizer) : ptr -> JSValue -> M unit :=
  match f with fn_jsNewClass_finalizer => jsNewClass_finalizer end.

(** Modelled from the spec: the engine's release of one object ("the
    engine notifies the bridge when the owning object is collected"): the
    finalizer of the object's class, if any, runs on the still live
    object, which is then unlinked.  The cells of the model hold no
    references to other cells, so what a release sets off in the objects
    the released one refers to is outside the model. *)
Definition free_object (rt : ptr) (p : ptr) : M unit :=
  let* o := deref objects p in
  let* r := deref runtimes rt in
  match class_array r !! class_id o with
  | Some def =>
      match finalizer def with
      | Some f => call_finalizer f rt (JS_OBJECT p)
      | None => ret tt
      end
  | None => ret tt
  end ;;;
  modify (with_objects (delete p)).

(** Modelled from the spec: the engine's [__JS_FreeValueRT], reached when
    a reference count drops to zero; the engine never releases a module
    this way and aborts. *)
Definition __JS_FreeValueRT (rt : ptr) (v : JSValue) : M unit :=
  match v with
  | JS_OBJECT p => free_object rt p
  | JS_MODULE _ => fault
  | _ => ret tt
  end.

(** [--p->ref_count], returning the new count. *)
Definition dec_ref_count (p : ptr) : M Z :=
  let* o := deref objects p in
  modify (with_objects <[p := set_ref_count (ref_count o - 1) o]>) ;;;
  ret (ref_count o - 1).

(** Modelled from the spec: the engine's [JS_FreeValueRT], the release of
    one engine-level reference. *)
Definition JS_FreeValueRT (rt : ptr) (v : JSValue) : M unit :=
  if JS_VALUE_HAS_REF_COUNT v then
    let* n := dec_ref_count (JS_VALUE_GET_PTR v) in
    if n <=? 0 then __JS_FreeValueRT rt v else ret tt
  else ret tt.

(** Modelled from the spec: the engine's [JS_FreeValue]; the context is
    only read when the count drops to zero. *)
Definition JS_FreeValue (ctx : ptr) (v : JSValue) : M unit :=
  if JS_VALUE_HAS_REF_COUNT v then
    let* n := dec_ref_count (JS_VALUE_GET_PTR v) in
    if n <=? 0 then
      let* rt := JS_GetRuntime ctx in __JS_FreeValueRT rt v
    else ret tt
  else ret tt.

Fixpoint free_objects (rt : ptr) (ps : list ptr) : M unit :=
  match ps with
  | [] => ret tt
  | p :: ps' => free_object rt p ;;; free_objects rt ps'
  end.

(** The cells linked in the object list of runtime [rt]. *)
Definition objects_of (rt : ptr) (w : World) : list ptr :=
  (map_to_list (filter (fun po => obj_rt po.2 = rt) (objects w))).*1.

(** Modelled from the spec: the engine's [JS_FreeRuntime] ("runtime
    teardown"): every object still linked in the runtime is released,
    then the runtime itself. *)
Definition JS_FreeRuntime (rt : ptr) : M unit :=
  let* _ := deref runtimes rt in
  (fun w => free_objects rt (objects_of rt w) w) ;;;
  modify (with_runtimes (delete rt)).

(** Modelled from the spec: the engine's [JS_NewRuntime]: a fresh runtime
    with an empty side-channel slot, no class and no hook.  The creation
    is taken to succeed, like [malloc]. *)
Definition JS_NewRuntime : M ptr :=
  fun w => let rt := malloc (runtimes w) in
           Ok rt (with_runtimes <[rt := mkRuntime NULL ∅ None false None None None]> w).

(** Modelled from the spec: the engine's [JS_NewContext]: a new context
    of the runtime, or the null pointer when the runtime cannot
    allocate. *)
Definition JS_NewContext (rt : ptr) : M ptr :=
  let* r := deref runtimes rt in
  if rt_oom r then ret NULL
  else
    fun w => let ctx := malloc (contexts w) in
             Ok ctx (with_contexts <[ctx := rt]> w).

(** Modelled from the spec: the engine's three hook setters, each called
    by [jsNewRuntime] with the bridge callback of the same name. *)
Definition JS_SetHostPromiseRejectionTracker (rt : ptr) (opaque : ptr) : M unit :=
  let* r := deref runtimes rt in
  modify (with_runtimes <[rt :=
    mkRuntime (rt_opaque r) (class_array r) (current_exception r) (rt_oom r)
              (Some opaque) (rt_module_loader r) (rt_interrupt_handler r)]>).

Definition JS_SetModuleLoaderFunc (rt : ptr) (opaque : ptr) : M unit :=
  let* r := deref runtimes rt in
  modify (with_runtimes <[rt :=
    mkRuntime (rt_opaque r) (class_array r) (current_exception r) (rt_oom r)
              (rt_promise_tracker r) (Some opaque) (rt_interrupt_handler r)]>).

Definition JS_SetInterruptHandler (rt : ptr) (opaque : ptr) : M unit :=
  let* r := deref runtimes rt in
  modify (with_runtimes <[rt :=
    mkRuntime (rt_opaque r) (class_array r) (current_exception r) (rt_oom r)
              (rt_promise_tracker r) (rt_module_loader r) (Some opaque)]>).

(** [int64_t] holds the integers from [-2^63] to [2^63 - 1].  A signed
    operation whose exact result is outside that range is undefined in C:
    it has no value here. *)
Definition fits_int64 (z : Z) : Prop := - 2 ^ 63 <= z < 2 ^ 63.

Definition int64_of (z : Z) : option Z :=
  if (- 2 ^ 63 <=? z) && (z <? 2 ^ 63) then Some z else None.

Definition JS_EVAL_TYPE_MODULE : Z := Z.shiftl 1 0.
Definition JS_EVAL_FLAG_COMPILE_ONLY : Z := Z.shiftl 1 5.

(** ** The bridge functions of [ffi.c] *)

Definition _CPP_NEW_JSVALUE (val : JSValue) : M ptr :=
  fun w => let p := malloc (boxes w) in
           Ok p (with_boxes <[p := val]> w).

(** [free(valRef)]: nothing for a null pointer, a fault for a pointer
    that is not a live box. *)
Definition _CPP_DELETE_JSVALUE (valRef : ptr) : M unit :=
  if decide (valRef = NULL) then ret tt
  else let* _ := deref boxes valRef in modify (with_boxes (delete valRef)).

Definition _CPP_NEW_RT (ch : JSChannel) (tmo : Z) (st : Z) : M ptr :=
  fun w => let p := malloc (rto_heap w) in
           Ok p (with_rto_heap <[p := mkRuntimeOpaque ch tmo st]> w).

Definition _CPP_DELETE_RT (rtRef : ptr) : M unit :=
  if decide (rtRef = NULL) then ret tt
  else let* _ := deref rto_heap rtRef in modify (with_rto_heap (delete rtRef)).

Definition js_promise_rejection_tracker (ctx : ptr) (promise reason : JSValue)
    (is_handled : Z) (opaque : ptr) : M unit :=
  if negb (is_handled =? 0) then ret tt
  else
    let* op := deref rto_heap opaque in
    let* _ := call_channel op ctx JSChannelType_PROMISE_TRACK (Arg_reason reason) in
    ret tt.

Definition jsNewRuntime (ch : JSChannel) (tmo : Z) : M ptr :=
  let* rt := JS_NewRuntime in
  let* opaque := _CPP_NEW_RT ch tmo 0 in
  JS_SetRuntimeOpaque rt opaque ;;;
  JS_SetHostPromiseRejectionTracker rt opaque ;;;
  JS_SetModuleLoaderFunc rt opaque ;;;
  JS_SetInterruptHandler rt opaque ;;;
  ret rt.

(** [jsNewClass]; [QJSClassId] is a local variable, zero at every call. *)
Definition jsNewClass (ctx : ptr) (name : string) : M N :=
  let* QJSClassId := JS_NewClassID 0%N in
  let* rt := JS_GetRuntime ctx in
  let* registered := JS_IsRegisteredClass rt QJSClassId in
  if negb registered then
    let def := mkClassDef name (Some fn_jsNewClass_finalizer) in
    let* e := JS_NewClass rt QJSClassId def in
    if e <? 0 then
      let* _ := JS_ThrowInternalError ctx ("Cant register class " +:+ name) in
      ret 0%N
    else ret QJSClassId
  else ret QJSClassId.

Definition jsGetObjectOpaque (obj : ptr) (classid : N) : M ptr :=
  let* v := deref boxes obj in JS_GetOpaque v classid.

Definition jsNewObjectClass (ctx : ptr) (QJSClassId : N) (opaque : ptr) : M ptr :=
  let* v := JS_NewObjectClass ctx QJSClassId in
  let* jsobj := _CPP_NEW_JSVALUE v in
  let* v' := deref boxes jsobj in
  if JS_IsException v' then ret jsobj
  else JS_SetOpaque v' opaque ;;; ret jsobj.

Definition jsFreeRuntime (rt : ptr) : M unit :=
  let* opauqe := JS_GetRuntimeOpaque rt in
  (if decide (opauqe = NULL) then ret tt else _CPP_DELETE_RT opauqe) ;;;
  JS_SetRuntimeOpaque rt NULL ;;;
  JS_FreeRuntime rt.

Definition jsNewContext (rt : ptr) : M ptr :=
  JS_UpdateStackTop rt ;;;
  JS_NewContext rt.

Definition jsGetRuntime (ctx : ptr) : M ptr := JS_GetRuntime ctx.

(** [js_begin_call]; [now] is what [clock()] returns. *)
Definition js_begin_call (rt : ptr) (now : Z) : M unit :=
  JS_UpdateStackTop rt ;;;
  let* opaque := JS_GetRuntimeOpaque rt in
  if decide (opaque = NULL) then ret tt
  else
    let* op := deref rto_heap opaque in
    modify (with_rto_heap <[opaque := set_start now op]>).

Definition jsFreeValue (ctx : ptr) (v : ptr) (free : Z) : M unit :=
  let* val := deref boxes v in
  JS_FreeValue ctx val ;;;
  if negb (free =? 0) then _CPP_DELETE_JSVALUE v else ret tt.

Definition jsFreeValueRT (rt : ptr) (v : ptr) (free : Z) : M unit :=
  let* val := deref boxes v in
  JS_FreeValueRT rt val ;;;
  if negb (free =? 0) then _CPP_DELETE_JSVALUE v else ret tt.

Section Bridge.

(** [CLOCKS_PER_SEC] of the C library. *)
Variable CLOCKS_PER_SEC : Z.

(** The evaluator of the engine is a black box: any state transformer
    that may fault. *)
Variable JS_Eval : ptr -> string -> Z -> string -> Z -> M JSValue.
Variable JS_Call : ptr -> JSValue -> JSValue -> Z -> list JSValue -> M JSValue.
Variable JS_ExecutePendingJob : ptr -> M (Z * ptr).

(** [clock() - op->start], a signed 64-bit subtraction. *)
Definition elapsed (now : Z) (op : RuntimeOpaque) : option Z :=
  int64_of (now - start op).

(** [op->timeout * CLOCKS_PER_SEC / 1000]: a signed 64-bit product, then
    the division of C, which truncates. *)
Definition budget (op : RuntimeOpaque) : option Z :=
  match int64_of (timeout op * CLOCKS_PER_SEC) with
  | Some ticks => Some (Z.quot ticks 1000)
  | None => None
  end.

(** The states and clock readings on which the arithmetic of a poll is
    defined.  Nothing is computed when the timeout or the call start is
    zero. *)
Definition poll_in_range (now : Z) (op : RuntimeOpaque) : Prop :=
  timeout op <> 0 -> start op <> 0 ->
  fits_int64 (now - start op) /\ fits_int64 (timeout op * CLOCKS_PER_SEC).

(** [js_interrupt_handler]; [now] is what [clock()] returns.  The third
    operand of [&&] is evaluated only when the first two are not zero; an
    overflow in it is undefined behaviour, a [Fault] like every other. *)
Definition js_interrupt_handler (rt : ptr) (opaque : ptr) (now : Z) : M Z :=
  let* op := deref rto_heap opaque in
  if negb (timeout op =? 0) && negb (start op =? 0) then
    match elapsed now op, budget op with
    | Some e, Some b =>
        if e >? b
        then modify (with_rto_heap <[opaque := set_start 0 op]>) ;;; ret 1
        else ret 0
    | _, _ => fault
    end
  else ret 0.

(** [__my_js_module_loader]; the result is the module definition, null
    when there is none.  The answer of the channel is read as a C string:
    a null pointer means not found, and a pointer to anything but a
    string cannot be read as source text. *)
Definition __my_js_module_loader (ctx : ptr) (module_name : string)
    (opaque : ptr) : M ptr :=
  let* op := deref rto_heap opaque in
  let* str := call_channel op ctx JSChannelType_MODULE (Arg_module_name module_name) in
  match str with
  | Ret_null => ret NULL
  | Ret_cstr s =>
      let* func_val :=
        JS_Eval ctx s (Z.of_nat (String.length s)) module_name
                (Z.lor JS_EVAL_TYPE_MODULE JS_EVAL_FLAG_COMPILE_ONLY) in
      if JS_IsException func_val then ret NULL
      else
        let m := JS_VALUE_GET_PTR func_val in
        JS_FreeValue ctx func_val ;;; ret m
  | Ret_box _ => fault
  end.

(** Modelled from the spec: the engine's resolution of one import with
    the installed loader ("engine resolution fails"): a null module
    definition makes the importing evaluation yield the exception
    marker. *)
Definition resolve_import (ctx : ptr) (module_name : string) (opaque : ptr)
    : M JSValue :=
  let* m := __my_js_module_loader ctx module_name opaque in
  if decide (m = NULL) then ret JS_EXCEPTION else ret (JS_MODULE m).

Definition jsEval (ctx : ptr) (input : string) (input_len : Z)
    (filename : string) (eval_flags : Z) (now : Z) : M ptr :=
  let* rt := JS_GetRuntime ctx in
  js_begin_call rt now ;;;
  let* v := JS_Eval ctx input input_len filename eval_flags in
  _CPP_NEW_JSVALUE v.

Definition jsCall (ctx : ptr) (func_obj this_obj : ptr) (argc : Z)
    (argv : list JSValue) (now : Z) : M ptr :=
  let* rt := JS_GetRuntime ctx in
  js_begin_call rt now ;;;
  let* f := deref boxes func_obj in
  let* this := deref boxes this_obj in
  let* v := JS_Call ctx f this argc argv in
  _CPP_NEW_JSVALUE v.

Definition jsExecutePendingJob (rt : ptr) (now : Z) : M Z :=
  js_begin_call rt now ;;;
  let* r := JS_ExecutePendingJob rt in
  ret r.1.

End Bridge.


(** ** Frames and sample worlds *)

(** A computation that never touches the boxes. *)
Definition keeps_boxes {A : Type} (m : M A) : Prop :=
  forall w a w', m w = Ok a w' -> boxes w' = boxes w.

(** The world a computation leaves, or the initial one after a fault. *)
Definition world_after {A : Type} (m : M A) (w : World) : World :=
  match m w with
  | Ok _ w' => w'
  | Fault => w
  end.

(** A host channel that answers every request with the null pointer. *)
Definition silent_channel : JSChannel := fun _ _ _ => Ret_null.

(** A process in which nothing is allocated yet; the class id counter of
    the engine starts above zero. *)
Definition w_start : World := mkWorld ∅ ∅ ∅ ∅ ∅ 1%N [].

(** One runtime with a two second timeout and one context: runtime,
    runtime context and context all get address 1. *)
Definition w_ready : World :=
  world_after (let* rt := jsNewRuntime silent_channel 2000 in jsNewContext rt) w_start.

(** In addition: one registered class and one instance carrying the
    opaque pointer 77, held by the box at address 1. *)
Definition w_attached : World :=
  world_after (let* cid := jsNewClass 1%N "Point" in jsNewObjectClass 1%N cid 77%N) w_ready.

(** The same world once the side-channel slot has been nulled. *)
Definition w_detached : World :=
  world_after (JS_SetRuntimeOpaque 1%N NULL) w_attached.

(** A runtime with the largest timeout there is, one context, and a call
    begun at clock reading 1000. *)
Definition w_huge : World :=
  world_after
    (let* rt := jsNewRuntime silent_channel (2 ^ 63 - 1) in
     let* _ := jsNewContext rt in
     js_begin_call rt 1000)
    w_start.

(** [w_ready] with a call begun at clock reading 1000. *)
Definition w_running : World :=
  world_after (js_begin_call 1%N 1000) w_ready.

(** The runtime context of [w_ready] and of [w_running]. *)
Definition op_ready : RuntimeOpaque := mkRuntimeOpaque silent_channel 2000 0.
Definition op_running : RuntimeOpaque := mkRuntimeOpaque silent_channel 2000 1000.

(** The class registered in [w_attached], and its runtime there. *)
Definition point_class : JSClassDef := mkClassDef "Point" (Some fn_jsNewClass_finalizer).
Definition rt_attached : JSRuntime :=
  mkRuntime 1%N {[1%N := point_class]} None false (Some 1%N) (Some 1%N) (Some 1%N).

(** A runtime that can allocate no more, with one context. *)
Definition w_exhausted : World :=
  mkWorld ∅ ∅ {[1%N := mkRuntime NULL ∅ None true None None None]}
          {[1%N := 1%N]} ∅ 1%N [].

(** Stand-ins for the evaluator where a concrete one is needed. *)
Definition idle_eval : ptr -> string -> Z -> string -> Z -> M JSValue :=
  fun _ _ _ _ _ => ret JS_UNDEFINED.
Definition idle_call : ptr -> JSValue -> JSValue -> Z -> list JSValue -> M JSValue :=
  fun _ _ _ _ _ => ret JS_UNDEFINED.
Definition idle_job : ptr -> M (Z * ptr) := fun _ => ret (0, NULL).


(** ** More of the bridge: duplication, exception test, string coercion *)

(** [p->ref_count++]. *)
Definition inc_ref_count (p : ptr) : M unit :=
  let* o := deref objects p in
  modify (with_objects <[p := set_ref_count (ref_count o + 1) o]>).

(** Modelled from the spec: the engine's [JS_DupValue], the acquisition of
    one engine-level reference; the context is not read. *)
Definition JS_DupValue (ctx : ptr) (v : JSValue) : M JSValue :=
  if JS_VALUE_HAS_REF_COUNT v then
    inc_ref_count (JS_VALUE_GET_PTR v) ;;; ret v
  else ret v.

(** Modelled from the spec: the engine's [JS_DupValueRT]. *)
Definition JS_DupValueRT (rt : ptr) (v : JSValue) : M JSValue :=
  if JS_VALUE_HAS_REF_COUNT v then
    inc_ref_count (JS_VALUE_GET_PTR v) ;;; ret v
  else ret v.

(** [jsIsException]; the C truth value of [JS_IsException] on the boxed
    value. *)
Definition jsIsException (val : ptr) : M Z :=
  let* v := deref boxes val in
  ret (if JS_IsException v then 1 else 0).

Definition jsDupValue (ctx : ptr) (v : ptr) : M ptr :=
  let* val := deref boxes v in
  let* d := JS_DupValue ctx val in
  _CPP_NEW_JSVALUE d.

Definition jsDupValueRT (rt : ptr) (v : ptr) : M ptr :=
  let* val := deref boxes v in
  let* d := JS_DupValueRT rt val in
  _CPP_NEW_JSVALUE d.

Section Coercion.

(** The string conversion of the engine is a black box as well: it may
    run script code.  Its result is the C string, if any. *)
Variable JS_ToCString : ptr -> JSValue -> M (option string).

Definition jsToCString (ctx : ptr) (val : ptr) (now : Z) : M (option string) :=
  let* rt := JS_GetRuntime ctx in
  js_begin_call rt now ;;;
  let* v := deref boxes val in
  JS_ToCString ctx v.

End Coercion.

(** ** Well-formed worlds and more samples *)

(** Every cell of the engine heap is linked in a live runtime. *)
Definition objects_owned (w : World) : Prop :=
  forall p o, objects w !! p = Some o -> is_Some (runtimes w !! obj_rt o).

(** A stand-in for the string conversion. *)
Definition idle_to_cstring : ptr -> JSValue -> M (option string) :=
  fun _ _ => ret (Some "x"%string).

(** Two runtimes side by side, each with a context; the second gets
    address 2 throughout. *)
Definition w_pair : World :=
  world_after (let* rt := jsNewRuntime silent_channel 50 in jsNewContext rt) w_attached.

(** A value whose engine-level reference, if it has one, is held: an
    immediate value, or a pointer to a live cell with a positive count. *)
Definition holds_reference (w : World) (v : JSValue) : Prop :=
  JS_VALUE_HAS_REF_COUNT v = true ->
  exists o, objects w !! JS_VALUE_GET_PTR v = Some o /\ 1 <= ref_count o.

(** A host channel that answers every module request with one source
    text, and a stand-in for the compiler of the engine that returns a
    new module cell referenced twice (by the engine and by the value
    returned). *)
Definition source_channel : JSChannel :=
  fun _ ty _ =>
    match ty with
    | JSChannelType_MODULE => Ret_cstr "export default 1"
    | _ => Ret_null
    end.

Definition stub_compile : ptr -> string -> Z -> string -> Z -> M JSValue :=
  fun _ _ _ _ _ w =>
    let m := malloc (objects w) in
    Ok (JS_MODULE m) (with_objects <[m := mkObject 1%N 2 0%N NULL]> w).

(** One runtime on [source_channel], with one context. *)
Definition w_source : World :=
  world_after (let* rt := jsNewRuntime source_channel 0 in jsNewContext rt) w_start.

(** The runtime of [w_ready], and the second runtime of [w_pair]. *)
Definition rt_ready : JSRuntime :=
  mkRuntime 1%N ∅ None false (Some 1%N) (Some 1%N) (Some 1%N).
Definition rt_second : JSRuntime :=
  mkRuntime 2%N ∅ None false (Some 2%N) (Some 2%N) (Some 2%N).

(** ** Running the monad *)

Lemma bind_ok {A B : Type} (m : M A) (k : A -> M B) (w w1 : World) (a : A) :
  m w = Ok a w1 -> bind m k w = k a w1.
Proof. intros H. unfold bind. now rewrite H. Qed.

Lemma deref_ok {A : Type} (h : World -> gmap N A) (p : ptr) (w : World) (a : A) :
  h w !! p = Some a -> deref h p w = Ok a w.
Proof. intros H. unfold deref. now rewrite H. Qed.

Lemma bind_deref {A B : Type} (h : World -> gmap N A) (p : ptr) (k : A -> M B)
    (w : World) (a : A) :
  h w !! p = Some a -> bind (deref h p) k w = k a w.
Proof. intros H. apply bind_ok. now apply deref_ok. Qed.

Lemma bind_inv {A B : Type} (m : M A) (k : A -> M B) (w w2 : World) (b : B) :
  bind m k w = Ok b w2 -> exists a w1, m w = Ok a w1 /\ k a w1 = Ok b w2.
Proof.
  unfold bind. destruct (m w) as [a w1|] eqn:E; [|discriminate].
  intros H. now exists a, w1.
Qed.

Lemma deref_inv {A : Type} (h : World -> gmap N A) (p : ptr) (w w1 : World) (a : A) :
  deref h p w = Ok a w1 -> w1 = w /\ h w !! p = Some a.
Proof.
  unfold deref. destruct (h w !! p) eqn:E; [|discriminate].
  intros H. inversion H. now subst.
Qed.

(** ** The interrupt monitor *)

Section Monitor.

Variable CLOCKS_PER_SEC : Z.

Lemma int64_of_fits (z : Z) : fits_int64 z -> int64_of z = Some z.
Proof.
  unfold fits_int64, int64_of. intros [Hl Hu].
  apply Z.leb_le in Hl. apply Z.ltb_lt in Hu. now rewrite Hl, Hu.
Qed.

(** With a multiple of 1000 for [CLOCKS_PER_SEC] the division of the
    source is exact: the ticks exceed the threshold exactly when they
    are worth more milliseconds than the timeout. *)
Lemma threshold_exact (tmo e : Z) :
  Z.divide 1000 CLOCKS_PER_SEC ->
  (e > Z.quot (tmo * CLOCKS_PER_SEC) 1000 <-> 1000 * e > tmo * CLOCKS_PER_SEC).
Proof.
  intros [k ->]. rewrite Z.mul_assoc, Z.quot_mul by lia. lia.
Qed.

(** A poll on a context whose timeout or call start is zero does no
    arithmetic and returns 0. *)
Lemma js_interrupt_handler_idle (w : World) (rt opaque : ptr)
    (op : RuntimeOpaque) (now : Z) :
  rto_heap w !! opaque = Some op ->
  timeout op = 0 \/ start op = 0 ->
  js_interrupt_handler CLOCKS_PER_SEC rt opaque now w = Ok 0 w.
Proof.
  intros Hop Hz. unfold js_interrupt_handler.
  rewrite (bind_deref _ _ _ _ _ Hop).
  destruct Hz as [-> | ->]; cbn [Z.eqb negb andb]; [reflexivity|].
  now rewrite andb_false_r.
Qed.

(** A poll on an armed context, where the arithmetic is defined. *)
Lemma js_interrupt_handler_armed (w : World) (rt opaque : ptr)
    (op : RuntimeOpaque) (now : Z) :
  rto_heap w !! opaque = Some op ->
  timeout op <> 0 -> start op <> 0 ->
  fits_int64 (now - start op) ->
  fits_int64 (timeout op * CLOCKS_PER_SEC) ->
  js_interrupt_handler CLOCKS_PER_SEC rt opaque now w
  = if now - start op >? Z.quot (timeout op * CLOCKS_PER_SEC) 1000
    then Ok 1 (with_rto_heap <[opaque := set_start 0 op]> w)
    else Ok 0 w.
Proof.
  intros Hop Ht Hs He Hb. unfold js_interrupt_handler.
  rewrite (bind_deref _ _ _ _ _ Hop).
  apply Z.eqb_neq in Ht, Hs. rewrite Ht, Hs. cbn [negb andb].
  unfold elapsed, budget. rewrite (int64_of_fits _ He), (int64_of_fits _ Hb).
  now destruct (now - start op >? Z.quot (timeout op * CLOCKS_PER_SEC) 1000).
Qed.

(** Whatever a poll that returns has returned, it has left the world as
    it was or has reset the call start of its context, and nothing else. *)
Lemma js_interrupt_handler_inv (w w1 : World) (rt opaque : ptr) (now r : Z) :
  js_interrupt_handler CLOCKS_PER_SEC rt opaque now w = Ok r w1 ->
  exists op,
    rto_heap w !! opaque = Some op
    /\ ((r = 1 /\ w1 = with_rto_heap <[opaque := set_start 0 op]> w)
        \/ (r = 0 /\ w1 = w)).
Proof.
  unfold js_interrupt_handler. intros H.
  apply bind_inv in H as (op & w0 & Hd & H). apply deref_inv in Hd as [-> Hop].
  exists op. split; [exact Hop|].
  destruct (negb (timeout op =? 0) && negb (start op =? 0));
    [|inversion H; now right].
  destruct (elapsed now op) as [e|]; [|discriminate].
  destruct (budget CLOCKS_PER_SEC op) as [b|]; [|discriminate].
  destruct (e >? b); inversion H; [now left | now right].
Qed.

(** C3, as the code has it.  Wherever the arithmetic of the poll is
    defined (the subtraction and the product fit in 64 bits whenever
    timeout and call start are both not zero), one poll of the interrupt
    monitor returns 1 (abort) exactly when the timeout is not zero, the
    call start is not zero and the elapsed ticks exceed the timeout
    converted to ticks; with [CLOCKS_PER_SEC] a multiple of 1000 that is
    exactly when the elapsed ticks are worth more milliseconds than the
    timeout.  An abort resets the call start to zero and changes nothing
    else, any other poll returns 0 and changes nothing, and a zero
    timeout never aborts. *)
Theorem interrupt_poll_one_shot (w : World) (rt opaque : ptr)
    (op : RuntimeOpaque) (now : Z) :
  rto_heap w !! opaque = Some op ->
  poll_in_range CLOCKS_PER_SEC now op ->
  exists r w',
    js_interrupt_handler CLOCKS_PER_SEC rt opaque now w = Ok r w'
    /\ (r = 1 <-> timeout op <> 0 /\ start op <> 0
                   /\ now - start op > Z.quot (timeout op * CLOCKS_PER_SEC) 1000)
    /\ (Z.divide 1000 CLOCKS_PER_SEC ->
        (r = 1 <-> timeout op <> 0 /\ start op <> 0
                   /\ 1000 * (now - start op) > timeout op * CLOCKS_PER_SEC))
    /\ (r = 1 -> w' = with_rto_heap <[opaque := set_start 0 op]> w)
    /\ (r <> 1 -> r = 0 /\ w' = w)
    /\ (timeout op = 0 -> r = 0 /\ w' = w).
Proof.
  intros Hop Hrange.
  destruct (decide (timeout op = 0 \/ start op = 0)) as [Hz | Hnz].
  - exists 0, w. split; [exact (js_interrupt_handler_idle w rt opaque op now Hop Hz)|].
    split; [split; [discriminate | tauto]|].
    split; [intros _; split; [discriminate | tauto]|].
    split; [discriminate|]. split; intros; now split.
  - assert (timeout op <> 0) as Ht by tauto.
    assert (start op <> 0) as Hs by tauto.
    destruct (Hrange Ht Hs) as [He Hb].
    pose proof (js_interrupt_handler_armed w rt opaque op now Hop Ht Hs He Hb) as Hrun.
    destruct (now - start op >? Z.quot (timeout op * CLOCKS_PER_SEC) 1000) eqn:E.
    + apply Z.gtb_gt in E.
      eexists 1, _. split; [exact Hrun|].
      split; [tauto|].
      split; [intros Hd; rewrite <- (threshold_exact _ _ Hd); tauto|].
      split; [reflexivity|]. split; intros; congruence.
    + assert (~ now - start op > Z.quot (timeout op * CLOCKS_PER_SEC) 1000) as Hn
        by (rewrite <- Z.gtb_gt, E; discriminate).
      exists 0, w. split; [exact Hrun|].
      split; [split; [discriminate | tauto]|].
      split; [intros Hd; rewrite <- (threshold_exact _ _ Hd);
              split; [discriminate | tauto]|].
      split; [discriminate|]. split; intros; now split.
Qed.

End Monitor.

(** C3, as the claim has it, fails.  In [w_huge] the timeout is the
    largest 64-bit integer and a call has begun at clock reading 1000.
    Polled at that same reading, with a million ticks per second, the
    monitor has to multiply the timeout by a million: the product does
    not fit, and the poll returns neither "continue", which the claim
    asks for as no time has elapsed, nor anything else. *)
Lemma interrupt_poll_overflow_has_no_outcome :
  rto_heap w_huge !! 1%N = Some (mkRuntimeOpaque silent_channel (2 ^ 63 - 1) 1000)
  /\ ~ (2 ^ 63 - 1 <> 0 /\ 1000 <> 0 /\ 1000 * (1000 - 1000) > (2 ^ 63 - 1) * 1000000)
  /\ js_interrupt_handler 1000000 1%N 1%N 1000 w_huge = Fault
  /\ ~ exists r w', js_interrupt_handler 1000000 1%N 1%N 1000 w_huge = Ok r w'.
Proof.
  split; [vm_compute; reflexivity|]. split; [lia|].
  assert (js_interrupt_handler 1000000 1%N 1%N 1000 w_huge = Fault) as H
    by (vm_compute; reflexivity).
  split; [exact H|]. intros (r & w' & H'). rewrite H in H'. discriminate.
Qed.

(** ** The promise rejection tracker *)

(** C4. A handled rejection leaves the world as it is: the channel is not
    invoked.  An unhandled one invokes the channel exactly once, with the
    kind PROMISE_TRACK and the rejection reason. *)
Theorem promise_tracker_dispatch (w : World) (ctx : ptr) (promise reason : JSValue)
    (is_handled : Z) (opaque : ptr) (op : RuntimeOpaque) :
  rto_heap w !! opaque = Some op ->
  (is_handled <> 0 ->
     js_promise_rejection_tracker ctx promise reason is_handled opaque w = Ok tt w)
  /\ (is_handled = 0 ->
     js_promise_rejection_tracker ctx promise reason is_handled opaque w
     = Ok tt (with_dispatched
                (fun l => l ++ [mkDispatch ctx JSChannelType_PROMISE_TRACK (Arg_reason reason)])
                w)).
Proof.
  intros Hop. unfold js_promise_rejection_tracker. split; intros Hh.
  - apply Z.eqb_neq in Hh. now rewrite Hh.
  - subst is_handled. cbn [Z.eqb negb].
    now rewrite (bind_deref _ _ _ _ _ Hop).
Qed.

(** ** The finalizer *)

Lemma JS_GetClassID_live (w : World) (p : ptr) (o : JSObject) :
  objects w !! p = Some o -> JS_GetClassID (JS_OBJECT p) w = Ok (class_id o) w.
Proof. intros H. unfold JS_GetClassID. now rewrite (bind_deref _ _ _ _ _ H). Qed.

Lemma JS_GetOpaque_own_class (w : World) (p : ptr) (o : JSObject) :
  objects w !! p = Some o ->
  JS_GetOpaque (JS_OBJECT p) (class_id o) w = Ok (obj_opaque o) w.
Proof.
  intros H. unfold JS_GetOpaque. rewrite (bind_deref _ _ _ _ _ H).
  now rewrite decide_True.
Qed.

Lemma JS_GetRuntimeOpaque_live (w : World) (rt : ptr) (r : JSRuntime) :
  runtimes w !! rt = Some r -> JS_GetRuntimeOpaque rt w = Ok (rt_opaque r) w.
Proof. intros H. unfold JS_GetRuntimeOpaque. now rewrite (bind_deref _ _ _ _ _ H). Qed.

Lemma jsNewClass_finalizer_null (w : World) (rt : ptr) (r : JSRuntime)
    (obj : JSValue) :
  runtimes w !! rt = Some r ->
  rt_opaque r = NULL ->
  live_value w obj ->
  jsNewClass_finalizer rt obj w = Ok tt w.
Proof.
  intros Hrt Hnull Hlive. unfold jsNewClass_finalizer.
  assert (exists c q, JS_GetClassID obj w = Ok c w /\ JS_GetOpaque obj c w = Ok q w)
    as (c & q & Hc & Hq).
  { destruct obj; try (now eexists _, _; split; reflexivity).
    destruct (Hlive p eq_refl) as [o Ho].
    exists (class_id o), (obj_opaque o).
    split; [now apply JS_GetClassID_live | now apply JS_GetOpaque_own_class]. }
  rewrite (bind_ok _ _ _ _ _ Hc), (bind_ok _ _ _ _ _ Hq).
  rewrite (bind_ok _ _ _ _ _ (JS_GetRuntimeOpaque_live _ _ _ Hrt)).
  now rewrite Hnull, decide_True.
Qed.

(** C5. When the side-channel slot of the runtime is null, the finalizer
    returns normally and leaves the world as it is: no channel invocation
    and no fault. *)
Theorem finalizer_null_slot_is_noop (w : World) (rt : ptr) (r : JSRuntime)
    (obj : JSValue) :
  runtimes w !! rt = Some r ->
  rt_opaque r = NULL ->
  live_value w obj ->
  jsNewClass_finalizer rt obj w = Ok tt w.
Proof. apply jsNewClass_finalizer_null. Qed.


(** ** Collection of objects, with and without a runtime context *)


Lemma free_object_null (w : World) (rt : ptr) (r : JSRuntime) (p : ptr) (o : JSObject) :
  runtimes w !! rt = Some r ->
  rt_opaque r = NULL ->
  objects w !! p = Some o ->
  free_object rt p w = Ok tt (with_objects (delete p) w).
Proof.
  intros Hrt Hc Ho. unfold free_object.
  rewrite (bind_deref _ _ _ _ _ Ho), (bind_deref _ _ _ _ _ Hrt).
  assert (jsNewClass_finalizer rt (JS_OBJECT p) w = Ok tt w) as Hfin.
  { apply (jsNewClass_finalizer_null w rt r); [assumption..|].
    intros p' [= <-]. now exists o. }
  destruct (class_array r !! class_id o) as [def|]; [|reflexivity].
  destruct (finalizer def) as [[]|]; [|reflexivity].
  cbn [call_finalizer]. now rewrite (bind_ok _ _ _ _ _ Hfin).
Qed.

Lemma lookup_fold_delete {A : Type} (ps : list N) (m : gmap N A) (q : N) :
  fold_left (fun m p => delete p m) ps m !! q
  = if decide (q ∈ ps) then None else m !! q.
Proof.
  revert m. induction ps as [|p ps IH]; intros m; cbn [fold_left].
  - rewrite decide_False; [reflexivity | apply not_elem_of_nil].
  - rewrite IH. destruct (decide (q ∈ ps)) as [Hin|Hnin].
    + rewrite decide_True; [reflexivity | rewrite elem_of_cons; tauto].
    + destruct (decide (q = p)) as [->|Hne].
      * rewrite decide_True by (rewrite elem_of_cons; tauto). apply lookup_delete_eq.
      * rewrite decide_False by (rewrite elem_of_cons; tauto).
        now apply lookup_delete_ne.
Qed.

(** With a null slot, collecting a list of distinct live objects makes no
    channel call and touches nothing but the object heap. *)
Lemma free_objects_null (rt : ptr) (r : JSRuntime) (ps : list ptr) (w : World) :
  runtimes w !! rt = Some r ->
  rt_opaque r = NULL ->
  NoDup ps ->
  (forall p, p ∈ ps -> is_Some (objects w !! p)) ->
  free_objects rt ps w
  = Ok tt (with_objects (fun m => fold_left (fun m p => delete p m) ps m) w).
Proof.
  intros Hrt Hc. revert w Hrt.
  induction ps as [|p ps IH]; intros w Hrt Hnd Hlive; cbn [free_objects fold_left].
  - now destruct w.
  - destruct (Hlive p ltac:(rewrite elem_of_cons; tauto)) as [o Ho].
    rewrite (bind_ok _ _ _ _ _ (free_object_null _ _ _ _ _ Hrt Hc Ho)).
    apply NoDup_cons in Hnd as [Hnotin Hnd].
    rewrite IH; [reflexivity | exact Hrt | exact Hnd |].
    intros q Hq. cbn. rewrite lookup_delete_ne by (intros ->; contradiction).
    apply Hlive. rewrite elem_of_cons; tauto.
Qed.

Lemma elem_of_objects_of (rt : ptr) (w : World) (p : ptr) :
  p ∈ objects_of rt w <-> exists o, objects w !! p = Some o /\ obj_rt o = rt.
Proof.
  unfold objects_of. rewrite list_elem_of_fmap. split.
  - intros ([p' o] & -> & Hin). apply elem_of_map_to_list in Hin.
    apply map_lookup_filter_Some in Hin as [Ho Hrt]. now exists o.
  - intros (o & Ho & Hrt). exists (p, o). split; [reflexivity|].
    apply elem_of_map_to_list. now apply map_lookup_filter_Some.
Qed.

Lemma NoDup_objects_of (rt : ptr) (w : World) : NoDup (objects_of rt w).
Proof. apply NoDup_fst_map_to_list. Qed.

Lemma JS_SetOpaque_live (w : World) (p : ptr) (o : JSObject) (q : ptr) :
  objects w !! p = Some o ->
  JS_SetOpaque (JS_OBJECT p) q w
  = Ok tt (with_objects <[p := set_obj_opaque q o]> w).
Proof. intros Ho. unfold JS_SetOpaque. now rewrite (bind_deref _ _ _ _ _ Ho). Qed.



(** ** Module loading and the entry points of the evaluator *)

Section Evaluator.

Variable JS_Eval : ptr -> string -> Z -> string -> Z -> M JSValue.
Variable JS_Call : ptr -> JSValue -> JSValue -> Z -> list JSValue -> M JSValue.
Variable JS_ExecutePendingJob : ptr -> M (Z * ptr).

(** C7. When the channel answers a MODULE request with the null
    pointer, the loader returns the null module definition without a
    fault and without running the evaluator; the only effect is the one
    channel call.  The engine then resolves the import to the exception
    marker. *)
Theorem module_loader_not_found (w : World) (ctx : ptr) (module_name : string)
    (opaque : ptr) (op : RuntimeOpaque) :
  rto_heap w !! opaque = Some op ->
  channel op ctx JSChannelType_MODULE (Arg_module_name module_name) = Ret_null ->
  __my_js_module_loader JS_Eval ctx module_name opaque w
  = Ok NULL (with_dispatched
               (fun l => l ++ [mkDispatch ctx JSChannelType_MODULE (Arg_module_name module_name)])
               w)
  /\ resolve_import JS_Eval ctx module_name opaque w
     = Ok JS_EXCEPTION
          (with_dispatched
             (fun l => l ++ [mkDispatch ctx JSChannelType_MODULE (Arg_module_name module_name)])
             w).
Proof.
  intros Hop Hnull.
  assert (__my_js_module_loader JS_Eval ctx module_name opaque w
          = Ok NULL (with_dispatched
               (fun l => l ++ [mkDispatch ctx JSChannelType_MODULE (Arg_module_name module_name)])
               w)) as Hload.
  { unfold __my_js_module_loader. rewrite (bind_deref _ _ _ _ _ Hop).
    unfold bind, call_channel. now rewrite Hnull. }
  split; [exact Hload|].
  unfold resolve_import. rewrite (bind_ok _ _ _ _ _ Hload).
  now rewrite decide_True.
Qed.

Lemma js_begin_call_stamps (w : World) (rt : ptr) (r : JSRuntime)
    (op : RuntimeOpaque) (now : Z) :
  runtimes w !! rt = Some r ->
  rt_opaque r <> NULL ->
  rto_heap w !! rt_opaque r = Some op ->
  js_begin_call rt now w
  = Ok tt (with_rto_heap <[rt_opaque r := set_start now op]> w).
Proof.
  intros Hrt Hc Hop. unfold js_begin_call, JS_UpdateStackTop.
  unfold bind at 1. rewrite (bind_deref _ _ _ _ _ Hrt). cbn [ret].
  rewrite (bind_ok _ _ _ _ _ (JS_GetRuntimeOpaque_live _ _ _ Hrt)).
  rewrite decide_False by assumption.
  now rewrite (bind_deref _ _ _ _ _ Hop).
Qed.

(** C8. With a runtime context attached, [jsEval], [jsCall] and
    [jsExecutePendingJob] first store the current clock reading in the
    call start of the context; the engine operation then runs on the
    world so stamped. *)
Theorem engine_entry_stamps_call_start (w : World) (ctx rt : ptr) (r : JSRuntime)
    (op : RuntimeOpaque) (now : Z) :
  contexts w !! ctx = Some rt ->
  runtimes w !! rt = Some r ->
  rt_opaque r <> NULL ->
  rto_heap w !! rt_opaque r = Some op ->
  exists ws op',
    js_begin_call rt now w = Ok tt ws
    /\ rto_heap ws !! rt_opaque r = Some op'
    /\ start op' = now /\ timeout op' = timeout op
    /\ (forall input input_len filename eval_flags,
           jsEval JS_Eval ctx input input_len filename eval_flags now w
           = (let* v := JS_Eval ctx input input_len filename eval_flags in
              _CPP_NEW_JSVALUE v) ws)
    /\ (forall func_obj this_obj f this argc argv,
           boxes w !! func_obj = Some f ->
           boxes w !! this_obj = Some this ->
           jsCall JS_Call ctx func_obj this_obj argc argv now w
           = (let* v := JS_Call ctx f this argc argv in _CPP_NEW_JSVALUE v) ws)
    /\ jsExecutePendingJob JS_ExecutePendingJob rt now w
       = (let* res := JS_ExecutePendingJob rt in ret res.1) ws.
Proof.
  intros Hctx Hrt Hc Hop.
  pose proof (js_begin_call_stamps w rt r op now Hrt Hc Hop) as Hb.
  eexists _, (set_start now op). split; [exact Hb|].
  split; [cbn; apply lookup_insert_eq|].
  split; [reflexivity|]. split; [reflexivity|].
  split; [|split].
  - intros. unfold jsEval, JS_GetRuntime.
    rewrite (bind_deref _ _ _ _ _ Hctx). now rewrite (bind_ok _ _ _ _ _ Hb).
  - intros func_obj this_obj f this argc argv Hf Hthis.
    unfold jsCall, JS_GetRuntime.
    rewrite (bind_deref _ _ _ _ _ Hctx), (bind_ok _ _ _ _ _ Hb).
    rewrite (bind_deref _ _ _ _ f) by exact Hf.
    now rewrite (bind_deref _ _ _ _ this) by exact Hthis.
  - unfold jsExecutePendingJob. now rewrite (bind_ok _ _ _ _ _ Hb).
Qed.

End Evaluator.

(** ** Objects with opaque data *)

Lemma JS_NewObjectClass_inv (w w1 : World) (ctx : ptr) (cid : N) (v : JSValue) :
  JS_NewObjectClass ctx cid w = Ok v w1 ->
  (v = JS_EXCEPTION /\ objects w1 = objects w)
  \/ (exists p rt, v = JS_OBJECT p /\ objects w1 = <[p := mkObject rt 1 cid NULL]> (objects w)).
Proof.
  unfold JS_NewObjectClass, JS_GetRuntime. intros H.
  apply bind_inv in H as (rt & w' & Hd & H). apply deref_inv in Hd as [-> _].
  apply bind_inv in H as (r & w' & Hd & H). apply deref_inv in Hd as [-> _].
  destruct (rt_oom r).
  - left. inversion H. split; reflexivity.
  - right. inversion H. exists (malloc (objects w)), rt. split; reflexivity.
Qed.

(** C9. Whatever the engine constructor returns ends up in the returned
    box.  When it is the exception marker the object heap is left as it
    was before the call: nothing is attached.  Otherwise it is a new
    object of the class, and the opaque pointer is attached to it. *)
Theorem new_object_class_attaches_on_success (w w1 : World) (ctx : ptr) (cid : N)
    (q : ptr) (v : JSValue) :
  JS_NewObjectClass ctx cid w = Ok v w1 ->
  exists jsobj w',
    jsNewObjectClass ctx cid q w = Ok jsobj w'
    /\ boxes w' !! jsobj = Some v
    /\ (v = JS_EXCEPTION -> objects w' = objects w)
    /\ (v <> JS_EXCEPTION ->
        exists p o, v = JS_OBJECT p /\ objects w' !! p = Some o
                    /\ obj_opaque o = q /\ class_id o = cid).
Proof.
  intros Hnew. unfold jsNewObjectClass.
  rewrite (bind_ok _ _ _ _ _ Hnew).
  unfold _CPP_NEW_JSVALUE at 1. unfold bind at 1.
  set (b := malloc (boxes w1)).
  rewrite (bind_deref _ _ _ _ v) by (cbn; apply lookup_insert_eq).
  destruct (JS_NewObjectClass_inv _ _ _ _ _ Hnew) as [[-> Hobj] | (p & rt & -> & Hobj)].
  - cbn [JS_IsException]. eexists _, _. split; [reflexivity|].
    cbn. split; [apply lookup_insert_eq|]. split; [now intros _ | congruence].
  - cbn [JS_IsException].
    rewrite (bind_ok _ _ _ _ _
               (JS_SetOpaque_live (with_boxes <[b := JS_OBJECT p]> w1) p
                  (mkObject rt 1 cid NULL) q
                  ltac:(cbn; rewrite Hobj; apply lookup_insert_eq))).
    eexists _, _. split; [reflexivity|].
    cbn. split; [apply lookup_insert_eq|]. split; [discriminate|].
    intros _. eexists p, _. split; [reflexivity|].
    split; [apply lookup_insert_eq|]. split; reflexivity.
Qed.

(** ** Class registration *)

Lemma JS_NewClass_inv (w w2 : World) (rt : ptr) (r : JSRuntime) (cid : N)
    (def : JSClassDef) (e : Z) :
  runtimes w !! rt = Some r ->
  JS_NewClass rt cid def w = Ok e w2 ->
  (e = -1 /\ w2 = w)
  \/ (e = 0 /\ rt_oom r = false /\ class_array r !! cid = None
      /\ w2 = with_runtimes <[rt := set_class_array (<[cid := def]> (class_array r)) r]> w).
Proof.
  intros Hrt. unfold JS_NewClass. rewrite (bind_deref _ _ _ _ _ Hrt).
  destruct (rt_oom r); [intros [= <- <-]; now left|].
  case_bool_decide as Hreg; [intros [= <- <-]; now left|].
  intros [= <- <-]. right. repeat split; try reflexivity.
  now apply eq_None_not_Some.
Qed.

(** A successful registration: the identifier is the current value of
    the process-wide counter, which moves on. *)
Lemma jsNewClass_registers (w : World) (ctx rt : ptr) (r : JSRuntime) (name : string) :
  contexts w !! ctx = Some rt ->
  runtimes w !! rt = Some r ->
  rt_oom r = false ->
  class_array r !! js_class_id_alloc w = None ->
  jsNewClass ctx name w
  = Ok (js_class_id_alloc w)
       (with_runtimes
          <[rt := set_class_array
                    (<[js_class_id_alloc w := mkClassDef name (Some fn_jsNewClass_finalizer)]>
                       (class_array r)) r]>
          (with_class_id_alloc (wrap32 (js_class_id_alloc w + 1)) w)).
Proof.
  intros Hctx Hrt Hoom Hfree. unfold jsNewClass.
  unfold JS_NewClassID. rewrite decide_True by reflexivity. unfold bind at 1.
  unfold JS_GetRuntime. rewrite (bind_deref _ _ _ _ rt) by exact Hctx.
  unfold JS_IsRegisteredClass. unfold bind at 1.
  rewrite (bind_deref _ _ _ _ r) by exact Hrt. cbn [ret].
  rewrite bool_decide_eq_false_2 by (rewrite Hfree; apply is_Some_None).
  cbn [negb]. unfold JS_NewClass. unfold bind at 1.
  rewrite (bind_deref _ _ _ _ r) by exact Hrt.
  rewrite Hoom, bool_decide_eq_false_2 by (rewrite Hfree; apply is_Some_None).
  reflexivity.
Qed.

(** Two registrations in a row, whatever the names: the second call
    starts from a zero slot again and gets the next identifier. *)
Lemma jsNewClass_twice (w : World) (ctx rt : ptr) (r : JSRuntime) (name name' : string) :
  contexts w !! ctx = Some rt ->
  runtimes w !! rt = Some r ->
  rt_oom r = false ->
  (js_class_id_alloc w < 2 ^ 32)%N ->
  class_array r !! js_class_id_alloc w = None ->
  class_array r !! wrap32 (js_class_id_alloc w + 1) = None ->
  exists w1 w2,
    jsNewClass ctx name w = Ok (js_class_id_alloc w) w1
    /\ jsNewClass ctx name' w1 = Ok (wrap32 (js_class_id_alloc w + 1)) w2
    /\ wrap32 (js_class_id_alloc w + 1) <> js_class_id_alloc w.
Proof.
  intros Hctx Hrt Hoom Hlt Hfree Hfree'.
  assert (wrap32 (js_class_id_alloc w + 1) <> js_class_id_alloc w) as Hne.
  { unfold wrap32. destruct (decide (js_class_id_alloc w + 1 < 2 ^ 32)%N).
    - rewrite N.mod_small by assumption. lia.
    - replace (js_class_id_alloc w + 1)%N with (2 ^ 32)%N by lia.
      rewrite N.Div0.mod_same. lia. }
  eexists _, _. split; [now apply (jsNewClass_registers w ctx rt r)|].
  split; [|exact Hne].
  erewrite jsNewClass_registers; [reflexivity | exact Hctx | cbn; apply lookup_insert_eq
                                 | exact Hoom |].
  cbn [js_class_id_alloc with_runtimes with_class_id_alloc class_array set_class_array].
  rewrite lookup_insert_ne by congruence.
  exact Hfree'.
Qed.

(** C1, on the code.  On the runtime of [w_ready], two registrations of
    the same name return two different identifiers, 1 and then 2: the
    slot handed to the engine is a local variable that is zero at every
    call, so the engine allocates a new identifier each time. *)
Theorem jsNewClass_same_name_twice :
  exists w1 w2,
    jsNewClass 1%N "Point" w_ready = Ok 1%N w1
    /\ jsNewClass 1%N "Point" w1 = Ok 2%N w2.
Proof.
  destruct (jsNewClass_twice w_ready 1%N 1%N
              (mkRuntime 1%N ∅ None false (Some 1%N) (Some 1%N) (Some 1%N))
              "Point" "Point")
    as (w1 & w2 & H1 & H2 & _); try reflexivity.
  now exists w1, w2.
Qed.

(** C10. When the engine refuses the registration, [jsNewClass] leaves an
    internal error pending on the runtime of the context and returns 0;
    no class is registered. *)
Theorem jsNewClass_failure_returns_zero (w w2 : World) (ctx rt : ptr) (r : JSRuntime)
    (name : string) (e : Z) :
  contexts w !! ctx = Some rt ->
  runtimes w !! rt = Some r ->
  class_array r !! js_class_id_alloc w = None ->
  JS_NewClass rt (js_class_id_alloc w) (mkClassDef name (Some fn_jsNewClass_finalizer))
              (with_class_id_alloc (wrap32 (js_class_id_alloc w + 1)) w)
  = Ok e w2 ->
  e < 0 ->
  exists w' r',
    jsNewClass ctx name w = Ok 0%N w'
    /\ runtimes w' !! rt = Some r'
    /\ current_exception r' = Some (JS_INTERNAL_ERROR, "Cant register class " +:+ name)
    /\ class_array r' = class_array r.
Proof.
  intros Hctx Hrt Hfree Hnew He.
  destruct (JS_NewClass_inv
              (with_class_id_alloc (wrap32 (js_class_id_alloc w + 1)) w)
              _ rt r _ _ _ Hrt Hnew) as [[-> ->] | [-> _]]; [|lia].
  unfold jsNewClass.
  unfold JS_NewClassID. rewrite decide_True by reflexivity. unfold bind at 1.
  unfold JS_GetRuntime at 1. rewrite (bind_deref _ _ _ _ rt) by exact Hctx.
  unfold JS_IsRegisteredClass. unfold bind at 1.
  rewrite (bind_deref _ _ _ _ r) by exact Hrt. cbn [ret].
  rewrite bool_decide_eq_false_2 by (rewrite Hfree; apply is_Some_None).
  cbn [negb]. rewrite (bind_ok _ _ _ _ _ Hnew). cbn [Z.ltb Z.compare].
  unfold JS_ThrowInternalError, JS_GetRuntime.
  unfold bind at 1. rewrite (bind_deref _ _ _ _ rt) by exact Hctx.
  rewrite (bind_deref _ _ _ _ r) by exact Hrt.
  eexists _, _. split; [reflexivity|].
  cbn. split; [apply lookup_insert_eq|]. split; reflexivity.
Qed.

(** ** Releasing boxed values *)

Lemma keeps_boxes_ret {A : Type} (a : A) : keeps_boxes (ret a).
Proof. intros w a' w' [= _ <-]. reflexivity. Qed.

Lemma keeps_boxes_fault {A : Type} : keeps_boxes (@fault A).
Proof. intros w a w' [=]. Qed.

Lemma keeps_boxes_bind {A B : Type} (m : M A) (k : A -> M B) :
  keeps_boxes m -> (forall a, keeps_boxes (k a)) -> keeps_boxes (bind m k).
Proof.
  intros Hm Hk w b w' H. apply bind_inv in H as (a & w1 & H1 & H2).
  rewrite (Hk _ _ _ _ H2). exact (Hm _ _ _ H1).
Qed.

Lemma keeps_boxes_deref {A : Type} (h : World -> gmap N A) (p : ptr) :
  keeps_boxes (deref h p).
Proof. intros w a w' H. apply deref_inv in H as [-> _]. reflexivity. Qed.

Lemma keeps_boxes_modify (f : World -> World) :
  (forall w, boxes (f w) = boxes w) -> keeps_boxes (modify f).
Proof. intros Hf w a w' H. inversion H. apply Hf. Qed.

Lemma keeps_boxes_call_channel (op : RuntimeOpaque) (ctx : ptr) (ty : JSChannelType)
    (argv : ChannelArg) :
  keeps_boxes (call_channel op ctx ty argv).
Proof. intros w a w' [= _ <-]. reflexivity. Qed.

Create HintDb frame.
#[local] Hint Resolve keeps_boxes_ret keeps_boxes_fault keeps_boxes_deref
  keeps_boxes_call_channel : frame.

Ltac frame_step :=
  first [ apply keeps_boxes_bind; [|intros ?]
        | apply keeps_boxes_modify; intros ?; reflexivity
        | solve [auto with frame]
        | case_match ].

Lemma keeps_boxes_finalizer (rt : ptr) (obj : JSValue) :
  keeps_boxes (jsNewClass_finalizer rt obj).
Proof.
  unfold jsNewClass_finalizer, JS_GetClassID, JS_GetOpaque, JS_GetRuntimeOpaque.
  repeat frame_step.
Qed.

Lemma keeps_boxes_free_object (rt p : ptr) : keeps_boxes (free_object rt p).
Proof.
  unfold free_object. repeat frame_step.
  match goal with |- keeps_boxes (call_finalizer ?f _ _) => destruct f end.
  apply keeps_boxes_finalizer.
Qed.

Lemma keeps_boxes_release (rt : ptr) (v : JSValue) : keeps_boxes (__JS_FreeValueRT rt v).
Proof.
  destruct v; cbn [__JS_FreeValueRT]; auto with frame.
  apply keeps_boxes_free_object.
Qed.

Lemma keeps_boxes_dec_ref_count (p : ptr) : keeps_boxes (dec_ref_count p).
Proof. unfold dec_ref_count. repeat frame_step. Qed.

Lemma keeps_boxes_JS_FreeValueRT (rt : ptr) (v : JSValue) :
  keeps_boxes (JS_FreeValueRT rt v).
Proof.
  unfold JS_FreeValueRT.
  destruct (JS_VALUE_HAS_REF_COUNT v); [|auto with frame].
  apply keeps_boxes_bind; [apply keeps_boxes_dec_ref_count|].
  intros n. destruct (n <=? 0); [apply keeps_boxes_release | auto with frame].
Qed.

Lemma keeps_boxes_JS_FreeValue (ctx : ptr) (v : JSValue) :
  keeps_boxes (JS_FreeValue ctx v).
Proof.
  unfold JS_FreeValue, JS_GetRuntime.
  destruct (JS_VALUE_HAS_REF_COUNT v); [|auto with frame].
  apply keeps_boxes_bind; [apply keeps_boxes_dec_ref_count|].
  intros n. destruct (n <=? 0); [|auto with frame].
  apply keeps_boxes_bind; [auto with frame|]. intros rt. apply keeps_boxes_release.
Qed.

(** What is left to do once the engine-level reference is released. *)
Lemma delete_box_if_flag (w1 : World) (v : ptr) (val : JSValue) (flag : Z) :
  v <> NULL ->
  boxes w1 !! v = Some val ->
  (if negb (flag =? 0) then _CPP_DELETE_JSVALUE v else ret tt) w1
  = Ok tt (if flag =? 0 then w1 else with_boxes (delete v) w1).
Proof.
  intros Hv Hbox. destruct (flag =? 0); cbn [negb]; [reflexivity|].
  unfold _CPP_DELETE_JSVALUE. rewrite decide_False by assumption.
  now rewrite (bind_deref _ _ _ _ _ Hbox).
Qed.

(** C2, as the code has it.  Both free operations always release the
    engine-level reference held by the box; the flag decides one thing
    only, whether the box itself is deallocated: a zero flag leaves it
    allocated, any other flag frees it. *)
Theorem free_always_releases_flag_frees_box (w : World) (v : ptr) (val : JSValue)
    (flag : Z) :
  v <> NULL ->
  boxes w !! v = Some val ->
  (forall ctx w1,
      JS_FreeValue ctx val w = Ok tt w1 ->
      jsFreeValue ctx v flag w
      = Ok tt (if flag =? 0 then w1 else with_boxes (delete v) w1))
  /\ (forall rt w1,
      JS_FreeValueRT rt val w = Ok tt w1 ->
      jsFreeValueRT rt v flag w
      = Ok tt (if flag =? 0 then w1 else with_boxes (delete v) w1)).
Proof.
  intros Hv Hbox. split.
  - intros ctx w1 Hrel. unfold jsFreeValue.
    rewrite (bind_deref _ _ _ _ _ Hbox), (bind_ok _ _ _ _ _ Hrel).
    apply (delete_box_if_flag w1 v val flag Hv).
    now rewrite (keeps_boxes_JS_FreeValue ctx val _ _ _ Hrel).
  - intros rt w1 Hrel. unfold jsFreeValueRT.
    rewrite (bind_deref _ _ _ _ _ Hbox), (bind_ok _ _ _ _ _ Hrel).
    apply (delete_box_if_flag w1 v val flag Hv).
    now rewrite (keeps_boxes_JS_FreeValueRT rt val _ _ _ Hrel).
Qed.

(** C2, as the claim has it, fails.  In [w_attached] the box at address 1
    holds the only reference to object 1.  Freeing it with a zero flag
    still releases that reference (the object is collected and its
    finalizer reports the opaque pointer 77), and the box is not
    deallocated. *)
Lemma free_with_zero_flag_releases_reference :
  exists w',
    jsFreeValue 1%N 1%N 0 w_attached = Ok tt w'
    /\ boxes w_attached !! 1%N = Some (JS_OBJECT 1%N)
    /\ (ref_count <$> objects w_attached !! 1%N) = Some 1
    /\ objects w' !! 1%N = None
    /\ dispatched w' = [mkDispatch 1%N JSChannelType_FREE_OBJECT (Arg_opaque 77%N)]
    /\ boxes w' !! 1%N = Some (JS_OBJECT 1%N).
Proof. eexists. repeat split; vm_compute; reflexivity. Qed.

(** ** The theorems at work on the sample worlds *)

Lemma interrupt_poll_one_shot_witness :
  exists r w',
    js_interrupt_handler 1000000 1%N 1%N 2001001 w_running = Ok r w'
    /\ (r = 1 <-> timeout op_running <> 0 /\ start op_running <> 0
                   /\ 2001001 - start op_running
                      > Z.quot (timeout op_running * 1000000) 1000)
    /\ (Z.divide 1000 1000000 ->
        (r = 1 <-> timeout op_running <> 0 /\ start op_running <> 0
                   /\ 1000 * (2001001 - start op_running)
                      > timeout op_running * 1000000))
    /\ (r = 1 -> w' = with_rto_heap <[1%N := set_start 0 op_running]> w_running)
    /\ (r <> 1 -> r = 0 /\ w' = w_running)
    /\ (timeout op_running = 0 -> r = 0 /\ w' = w_running).
Proof.
  apply (interrupt_poll_one_shot 1000000 w_running 1%N 1%N op_running 2001001).
  - vm_compute. reflexivity.
  - intros _ _. unfold fits_int64. cbn. lia.
Defined.

Lemma promise_tracker_dispatch_witness :
  js_promise_rejection_tracker 1%N (JS_OBJECT 7%N) (JS_INT 42) 1 1%N w_ready
  = Ok tt w_ready
  /\ js_promise_rejection_tracker 1%N (JS_OBJECT 7%N) (JS_INT 42) 0 1%N w_ready
     = Ok tt (with_dispatched
                (fun l => l ++ [mkDispatch 1%N JSChannelType_PROMISE_TRACK (Arg_reason (JS_INT 42))])
                w_ready).
Proof.
  split.
  - apply (promise_tracker_dispatch w_ready 1%N (JS_OBJECT 7%N) (JS_INT 42) 1 1%N op_ready);
      [vm_compute; reflexivity | lia].
  - apply (promise_tracker_dispatch w_ready 1%N (JS_OBJECT 7%N) (JS_INT 42) 0 1%N op_ready);
      [vm_compute; reflexivity | reflexivity].
Defined.

Lemma finalizer_null_slot_is_noop_witness :
  jsNewClass_finalizer 1%N (JS_OBJECT 1%N) w_detached = Ok tt w_detached.
Proof.
  apply (finalizer_null_slot_is_noop w_detached 1%N (set_rt_opaque NULL rt_attached)).
  - vm_compute. reflexivity.
  - reflexivity.
  - intros p [= <-]. vm_compute. eexists. reflexivity.
Defined.


Lemma module_loader_not_found_witness :
  __my_js_module_loader idle_eval 1%N "missing" 1%N w_ready
  = Ok NULL (with_dispatched
               (fun l => l ++ [mkDispatch 1%N JSChannelType_MODULE (Arg_module_name "missing")])
               w_ready)
  /\ resolve_import idle_eval 1%N "missing" 1%N w_ready
     = Ok JS_EXCEPTION
          (with_dispatched
             (fun l => l ++ [mkDispatch 1%N JSChannelType_MODULE (Arg_module_name "missing")])
             w_ready).
Proof.
  apply (module_loader_not_found idle_eval w_ready 1%N "missing" 1%N op_ready).
  - vm_compute. reflexivity.
  - reflexivity.
Defined.

Lemma engine_entry_stamps_call_start_witness :
  exists ws op',
    js_begin_call 1%N 1000 w_attached = Ok tt ws
    /\ rto_heap ws !! 1%N = Some op'
    /\ start op' = 1000 /\ timeout op' = 2000
    /\ jsEval idle_eval 1%N "1+1" 3 "main.js" 0 1000 w_attached
       = (let* v := idle_eval 1%N "1+1" 3 "main.js" 0 in _CPP_NEW_JSVALUE v) ws
    /\ jsCall idle_call 1%N 1%N 1%N 0 [] 1000 w_attached
       = (let* v := idle_call 1%N (JS_OBJECT 1%N) (JS_OBJECT 1%N) 0 [] in
          _CPP_NEW_JSVALUE v) ws
    /\ jsExecutePendingJob idle_job 1%N 1000 w_attached
       = (let* res := idle_job 1%N in ret res.1) ws.
Proof.
  destruct (engine_entry_stamps_call_start idle_eval idle_call idle_job
              w_attached 1%N 1%N rt_attached op_ready 1000)
    as (ws & op' & Hb & Hop & Hs & Ht & He & Hc & Hj);
    try (vm_compute; reflexivity); [discriminate|].
  exists ws, op'. repeat split; try assumption.
  - apply He.
  - apply Hc; vm_compute; reflexivity.
Defined.

Lemma new_object_class_attaches_on_success_witness :
  (exists jsobj w',
      jsNewObjectClass 1%N 1%N 77%N w_exhausted = Ok jsobj w'
      /\ boxes w' !! jsobj = Some JS_EXCEPTION
      /\ (JS_EXCEPTION = JS_EXCEPTION -> objects w' = objects w_exhausted)
      /\ (JS_EXCEPTION <> JS_EXCEPTION ->
          exists p o, JS_EXCEPTION = JS_OBJECT p /\ objects w' !! p = Some o
                      /\ obj_opaque o = 77%N /\ class_id o = 1%N))
  /\ (exists jsobj w',
      jsNewObjectClass 1%N 1%N 77%N w_ready = Ok jsobj w'
      /\ boxes w' !! jsobj = Some (JS_OBJECT 1%N)
      /\ (JS_OBJECT 1%N = JS_EXCEPTION -> objects w' = objects w_ready)
      /\ (JS_OBJECT 1%N <> JS_EXCEPTION ->
          exists p o, JS_OBJECT 1%N = JS_OBJECT p /\ objects w' !! p = Some o
                      /\ obj_opaque o = 77%N /\ class_id o = 1%N)).
Proof.
  split.
  - apply (new_object_class_attaches_on_success w_exhausted
             (world_after (JS_NewObjectClass 1%N 1%N) w_exhausted)).
    vm_compute. reflexivity.
  - apply (new_object_class_attaches_on_success w_ready
             (world_after (JS_NewObjectClass 1%N 1%N) w_ready)).
    vm_compute. reflexivity.
Defined.

Lemma jsNewClass_failure_returns_zero_witness :
  exists w' r',
    jsNewClass 1%N "Point" w_exhausted = Ok 0%N w'
    /\ runtimes w' !! 1%N = Some r'
    /\ current_exception r' = Some (JS_INTERNAL_ERROR, "Cant register class Point")
    /\ class_array r' = ∅.
Proof.
  apply (jsNewClass_failure_returns_zero w_exhausted
           (with_class_id_alloc 2%N w_exhausted) 1%N 1%N
           (mkRuntime NULL ∅ None true None None None) "Point" (-1));
    try (vm_compute; reflexivity).
Defined.

Lemma free_always_releases_flag_frees_box_witness :
  jsFreeValue 1%N 1%N 0 w_attached
  = Ok tt (world_after (JS_FreeValue 1%N (JS_OBJECT 1%N)) w_attached)
  /\ jsFreeValueRT 1%N 1%N 1 w_attached
     = Ok tt (with_boxes (delete 1%N)
                (world_after (JS_FreeValueRT 1%N (JS_OBJECT 1%N)) w_attached)).
Proof.
  split.
  - apply (free_always_releases_flag_frees_box w_attached 1%N (JS_OBJECT 1%N) 0);
      [discriminate | vm_compute; reflexivity | vm_compute; reflexivity].
  - apply (free_always_releases_flag_frees_box w_attached 1%N (JS_OBJECT 1%N) 1);
      [discriminate | vm_compute; reflexivity | vm_compute; reflexivity].
Defined.

(** Two runs through the bridge from [w_attached].  Releasing the box
    and then tearing the runtime down reports the opaque pointer once;
    tearing down alone reports nothing. *)
Example release_then_teardown_trace :
  exists w',
    (jsFreeValue 1%N 1%N 1 ;;; jsFreeRuntime 1%N) w_attached = Ok tt w'
    /\ dispatched w' = [mkDispatch 1%N JSChannelType_FREE_OBJECT (Arg_opaque 77%N)]
    /\ objects w' = ∅ /\ boxes w' = ∅ /\ rto_heap w' = ∅.
Proof. eexists. repeat split; vm_compute; reflexivity. Qed.

Example teardown_only_trace :
  exists w',
    jsFreeRuntime 1%N w_attached = Ok tt w'
    /\ dispatched w' = []
    /\ objects w' = ∅ /\ rto_heap w' = ∅.
Proof. eexists. repeat split; vm_compute; reflexivity. Qed.

(** ** Allocation *)

Lemma malloc_fresh {A : Type} (h : gmap N A) : h !! malloc h = None /\ malloc h <> NULL.
Proof.
  unfold malloc. pose proof (is_fresh ({[NULL]} ∪ dom h)) as H. split.
  - apply not_elem_of_dom. set_solver.
  - set_solver.
Qed.

Lemma world_eta (w : World) :
  mkWorld (rto_heap w) (boxes w) (runtimes w) (contexts w) (objects w)
          (js_class_id_alloc w) (dispatched w) = w.
Proof. now destruct w. Qed.

Lemma world_ext (w : World) h b r c o n d :
  h = rto_heap w -> b = boxes w -> r = runtimes w -> c = contexts w ->
  o = objects w -> n = js_class_id_alloc w -> d = dispatched w ->
  mkWorld h b r c o n d = w.
Proof. intros -> -> -> -> -> -> ->. apply world_eta. Qed.

Lemma jsNewRuntime_spec (w : World) (ch : JSChannel) (tmo : Z) :
  exists rt c w',
    jsNewRuntime ch tmo w = Ok rt w'
    /\ rt <> NULL /\ c <> NULL
    /\ runtimes w !! rt = None /\ rto_heap w !! c = None
    /\ runtimes w' !! rt = Some (mkRuntime c ∅ None false (Some c) (Some c) (Some c))
    /\ rto_heap w' !! c = Some (mkRuntimeOpaque ch tmo 0)
    /\ (forall rt', rt' <> rt -> runtimes w' !! rt' = runtimes w !! rt')
    /\ (forall c', c' <> c -> rto_heap w' !! c' = rto_heap w !! c')
    /\ boxes w' = boxes w /\ contexts w' = contexts w /\ objects w' = objects w
    /\ js_class_id_alloc w' = js_class_id_alloc w
    /\ dispatched w' = dispatched w.
Proof.
  destruct (malloc_fresh (runtimes w)) as [Hrt Hrt0].
  destruct (malloc_fresh (rto_heap w)) as [Hc Hc0].
  exists (malloc (runtimes w)), (malloc (rto_heap w)).
  unfold jsNewRuntime, JS_NewRuntime, _CPP_NEW_RT, JS_SetRuntimeOpaque,
    JS_SetHostPromiseRejectionTracker, JS_SetModuleLoaderFunc, JS_SetInterruptHandler.
  unfold bind, deref, modify, ret. cbn.
  repeat (rewrite lookup_insert_eq; cbn).
  eexists. split; [reflexivity|]. cbn.
  rewrite !insert_insert_eq.
  repeat split; try assumption; try apply lookup_insert_eq.
  - intros rt' Hne. now apply lookup_insert_ne.
  - intros c' Hne. now apply lookup_insert_ne.
Qed.

(** ** The monitor over a call *)

(** X2. A runtime that has just been created cannot be interrupted: the
    interrupt handler installed by [jsNewRuntime], polled with the opaque
    pointer it was installed with, returns 0 at every clock reading and
    for every timeout, and changes nothing. *)
Theorem fresh_runtime_never_aborts (CPS : Z) (w : World) (ch : JSChannel)
    (tmo now : Z) :
  exists rt c w',
    jsNewRuntime ch tmo w = Ok rt w'
    /\ (rt_interrupt_handler <$> runtimes w' !! rt) = Some (Some c)
    /\ js_interrupt_handler CPS rt c now w' = Ok 0 w'.
Proof.
  destruct (jsNewRuntime_spec w ch tmo)
    as (rt & c & w' & Hnew & _ & _ & _ & _ & Hrt & Hc & _).
  exists rt, c, w'. split; [exact Hnew|]. split; [now rewrite Hrt|].
  apply (js_interrupt_handler_idle CPS w' rt c (mkRuntimeOpaque ch tmo 0) now Hc).
  now right.
Qed.

(** X3. An abort is one-shot: once a poll has returned 1, the next poll
    returns 0 and changes nothing, whatever the clock reads. *)
Theorem abort_is_one_shot (CPS : Z) (w w1 : World) (rt opaque : ptr) (now now' : Z) :
  js_interrupt_handler CPS rt opaque now w = Ok 1 w1 ->
  js_interrupt_handler CPS rt opaque now' w1 = Ok 0 w1.
Proof.
  intros H.
  apply js_interrupt_handler_inv in H as (op & Hop & [(_ & ->) | (H & _)]);
    [|discriminate].
  apply (js_interrupt_handler_idle CPS _ rt opaque (set_start 0 op) now');
    [cbn; apply lookup_insert_eq | now right].
Qed.

(** X4. Beginning a call arms the monitor with the clock reading alone,
    whatever call start was stored before.  A call that begins at clock
    reading 0, or under a zero timeout, is never interrupted: the next
    poll returns 0 and changes nothing at every clock reading.  Otherwise,
    where the subtraction and the product of the poll fit in 64 bits, the
    next poll aborts exactly when the ticks elapsed since the reading
    taken at the beginning of the call exceed the timeout converted to
    ticks. *)
Theorem begin_call_arms_monitor (CPS : Z) (w : World) (rt : ptr) (r : JSRuntime)
    (op : RuntimeOpaque) (t now : Z) :
  runtimes w !! rt = Some r ->
  rt_opaque r <> NULL ->
  rto_heap w !! rt_opaque r = Some op ->
  exists ws,
    js_begin_call rt t w = Ok tt ws
    /\ (t = 0 \/ timeout op = 0 ->
        js_interrupt_handler CPS rt (rt_opaque r) now ws = Ok 0 ws)
    /\ (t <> 0 -> timeout op <> 0 ->
        fits_int64 (now - t) -> fits_int64 (timeout op * CPS) ->
        exists res w',
          js_interrupt_handler CPS rt (rt_opaque r) now ws = Ok res w'
          /\ (res = 1 <-> now - t > Z.quot (timeout op * CPS) 1000)
          /\ (res = 1 -> w' = with_rto_heap <[rt_opaque r := set_start 0 op]> w)
          /\ (res <> 1 -> res = 0 /\ w' = ws)).
Proof.
  intros Hrt Hc Hop.
  pose proof (js_begin_call_stamps w rt r op t Hrt Hc Hop) as Hb.
  set (ws := with_rto_heap <[rt_opaque r := set_start t op]> w) in *.
  assert (rto_heap ws !! rt_opaque r = Some (set_start t op)) as Hs
    by (cbn; apply lookup_insert_eq).
  exists ws. split; [exact Hb|]. split.
  - intros Hz.
    apply (js_interrupt_handler_idle CPS ws rt (rt_opaque r) (set_start t op) now Hs).
    cbn. tauto.
  - intros Ht Htmo He Hfits.
    pose proof (js_interrupt_handler_armed CPS ws rt (rt_opaque r) (set_start t op) now
                  Hs Htmo Ht He Hfits) as Hrun.
    cbn [start timeout set_start] in Hrun.
    destruct (now - t >? Z.quot (timeout op * CPS) 1000) eqn:E.
    + apply Z.gtb_gt in E. eexists 1, _. split; [exact Hrun|].
      split; [tauto|]. split; [|congruence].
      intros _. subst ws. unfold with_rto_heap. cbn. now rewrite insert_insert_eq.
    + assert (~ now - t > Z.quot (timeout op * CPS) 1000) as Hn
        by (rewrite <- Z.gtb_gt, E; discriminate).
      exists 0, ws. split; [exact Hrun|].
      split; [split; [discriminate | tauto]|]. split; [discriminate | now split].
Qed.

(** ** Boxes *)

Lemma jsIsException_live (w : World) (val : ptr) (v : JSValue) :
  boxes w !! val = Some v ->
  jsIsException val w = Ok (if JS_IsException v then 1 else 0) w.
Proof. intros H. unfold jsIsException. now rewrite (bind_deref _ _ _ _ _ H). Qed.

(** ** Attaching and reading opaque data *)

Lemma jsNewObjectClass_inv (w w' : World) (ctx : ptr) (cid : N) (q jsobj : ptr) :
  jsNewObjectClass ctx cid q w = Ok jsobj w' ->
  boxes w' !! jsobj = Some JS_EXCEPTION
  \/ exists p o,
       boxes w' !! jsobj = Some (JS_OBJECT p)
       /\ objects w' !! p = Some o
       /\ class_id o = cid /\ obj_opaque o = q /\ ref_count o = 1.
Proof.
  unfold jsNewObjectClass. intros H.
  apply bind_inv in H as (v & w1 & Hnew & H).
  unfold _CPP_NEW_JSVALUE at 1 in H. unfold bind at 1 in H.
  rewrite (bind_deref _ _ _ _ v) in H by (cbn; apply lookup_insert_eq).
  destruct (JS_NewObjectClass_inv _ _ _ _ _ Hnew) as [[-> Hobj] | (p & rt & -> & Hobj)];
    cbn [JS_IsException] in H.
  - left. inversion H. cbn. apply lookup_insert_eq.
  - right.
    rewrite (bind_ok _ _ _ _ _
               (JS_SetOpaque_live (with_boxes <[malloc (boxes w1) := JS_OBJECT p]> w1) p
                  (mkObject rt 1 cid NULL) q
                  ltac:(cbn; rewrite Hobj; apply lookup_insert_eq))) in H.
    inversion H. exists p, (set_obj_opaque q (mkObject rt 1 cid NULL)).
    cbn. split; [apply lookup_insert_eq|]. split; [apply lookup_insert_eq|].
    now repeat split.
Qed.

(** X6. Attach, then read.  On the box returned by [jsNewObjectClass],
    [jsIsException] tells the two outcomes apart.  After a successful
    construction [jsGetObjectOpaque] with the class of the object returns
    the pointer that was attached, and with any other class the null
    pointer; on the box of a failed construction it returns the null
    pointer for every class.  None of these reads changes the world. *)
Theorem attach_then_read (w w' : World) (ctx : ptr) (cid : N) (q jsobj : ptr) :
  jsNewObjectClass ctx cid q w = Ok jsobj w' ->
  exists e,
    jsIsException jsobj w' = Ok e w'
    /\ (e = 0 ->
        jsGetObjectOpaque jsobj cid w' = Ok q w'
        /\ forall cid', cid' <> cid -> jsGetObjectOpaque jsobj cid' w' = Ok NULL w')
    /\ (e <> 0 -> forall cid', jsGetObjectOpaque jsobj cid' w' = Ok NULL w').
Proof.
  intros H. apply jsNewObjectClass_inv in H as [Hbox | (p & o & Hbox & Ho & Hc & Hq & _)].
  - exists 1. split; [now rewrite (jsIsException_live _ _ _ Hbox)|].
    split; [discriminate|]. intros _ cid'.
    unfold jsGetObjectOpaque. now rewrite (bind_deref _ _ _ _ _ Hbox).
  - exists 0. split; [now rewrite (jsIsException_live _ _ _ Hbox)|].
    split; [|congruence]. intros _. unfold jsGetObjectOpaque, JS_GetOpaque.
    split; [|intros cid' Hne];
      rewrite (bind_deref _ _ _ _ _ Hbox), (bind_deref _ _ _ _ _ Ho).
    + rewrite decide_True by exact Hc. now rewrite Hq.
    + now rewrite decide_False by congruence.
Qed.

(** ** Duplicating and freeing *)

(** X7. Duplicate, then free.  For a live box whose value holds its
    reference, duplicating the box and freeing the duplicate with any
    flag that is not zero gives back the very world it started from: the
    reference count is as before, no box is left behind, nothing is
    collected and no channel call is made.  This holds for the context
    and for the runtime variant. *)
Theorem dup_then_free_restores (w : World) (ctx rt v : ptr) (val : JSValue)
    (flag : Z) :
  boxes w !! v = Some val ->
  holds_reference w val ->
  flag <> 0 ->
  (let* b := jsDupValue ctx v in jsFreeValue ctx b flag) w = Ok tt w
  /\ (let* b := jsDupValueRT rt v in jsFreeValueRT rt b flag) w = Ok tt w.
Proof.
  intros Hbox Href Hflag. apply Z.eqb_neq in Hflag.
  destruct (malloc_fresh (boxes w)) as [Hfresh Hnn].
  unfold jsDupValue, jsDupValueRT, JS_DupValue, JS_DupValueRT,
    jsFreeValue, jsFreeValueRT, JS_FreeValue, JS_FreeValueRT,
    inc_ref_count, dec_ref_count, _CPP_NEW_JSVALUE, _CPP_DELETE_JSVALUE.
  unfold holds_reference in Href.
  destruct (JS_VALUE_HAS_REF_COUNT val) eqn:Hrc.
  - destruct (Href eq_refl) as (o & Ho & Hpos).
    assert (set_ref_count (ref_count o + 1 - 1) (set_ref_count (ref_count o + 1) o) = o)
      as Hback by (destruct o; unfold set_ref_count; cbn; f_equal; lia).
    assert ((ref_count o + 1 - 1 <=? 0) = false) as Hpos' by (apply Z.leb_gt; lia).
    unfold bind, deref, modify, ret. cbn.
    repeat (first [ rewrite Hbox | rewrite Hrc | rewrite Ho | rewrite lookup_insert_eq
                  | rewrite Hpos' | rewrite Hflag
                  | rewrite decide_False by exact Hnn ]; cbn).
    unfold with_boxes, with_objects; cbn.
    rewrite delete_insert_id by exact Hfresh. rewrite insert_insert_eq, Hback.
    rewrite insert_id by exact Ho. rewrite world_eta. now split.
  - unfold bind, deref, modify, ret. cbn.
    repeat (first [ rewrite Hbox | rewrite Hrc | rewrite lookup_insert_eq
                  | rewrite Hflag
                  | rewrite decide_False by exact Hnn ]; cbn).
    unfold with_boxes; cbn.
    rewrite delete_insert_id by exact Hfresh. rewrite world_eta. now split.
Qed.

(** ** From registration to finalization *)

(** X8. Register, attach, release.  On a runtime that can allocate and
    has its context attached, registering a class, constructing an
    instance with an opaque pointer and freeing the returned box makes
    exactly one channel call: FREE_OBJECT with that pointer, the runtime
    pointer standing in the context argument.  This happens for every
    value of the flag; the engine heap is then as it was before, and the
    box is gone unless the flag is zero. *)
Theorem register_attach_release (w : World) (ctx rt : ptr) (r : JSRuntime)
    (op : RuntimeOpaque) (name : string) (q : ptr) (flag : Z) :
  contexts w !! ctx = Some rt ->
  runtimes w !! rt = Some r ->
  rt_oom r = false ->
  rt_opaque r <> NULL ->
  rto_heap w !! rt_opaque r = Some op ->
  class_array r !! js_class_id_alloc w = None ->
  exists w',
    (let* cid := jsNewClass ctx name in
     let* b := jsNewObjectClass ctx cid q in
     jsFreeValue ctx b flag) w = Ok tt w'
    /\ dispatched w'
       = dispatched w ++ [mkDispatch rt JSChannelType_FREE_OBJECT (Arg_opaque q)]
    /\ objects w' = objects w
    /\ boxes w' = (if flag =? 0
                   then <[malloc (boxes w) := JS_OBJECT (malloc (objects w))]> (boxes w)
                   else boxes w).
Proof.
  intros Hctx Hrt Hoom Hslot Hop Hfree.
  destruct (malloc_fresh (boxes w)) as [Hbf Hbn].
  destruct (malloc_fresh (objects w)) as [Hof Hon].
  rewrite (bind_ok _ _ _ _ _ (jsNewClass_registers w ctx rt r name Hctx Hrt Hoom Hfree)).
  unfold jsNewObjectClass, JS_NewObjectClass, JS_GetRuntime, _CPP_NEW_JSVALUE,
    JS_SetOpaque, jsFreeValue, JS_FreeValue, JS_GetRuntime, dec_ref_count,
    __JS_FreeValueRT, free_object, jsNewClass_finalizer, JS_GetClassID, JS_GetOpaque,
    JS_GetRuntimeOpaque, call_channel, _CPP_DELETE_JSVALUE.
  unfold bind, deref, modify, ret. cbn.
  repeat (first [ rewrite Hctx | rewrite Hrt | rewrite Hoom | rewrite Hop
                | rewrite lookup_insert_eq
                | progress change (1 - 1) with 0
                | progress change (0 <=? 0) with true
                | rewrite decide_True by reflexivity
                | rewrite decide_False by assumption ];
          cbn [call_finalizer]; unfold jsNewClass_finalizer, JS_GetClassID, JS_GetOpaque,
            JS_GetRuntimeOpaque, call_channel, bind, deref, modify, ret; cbn).
  destruct (flag =? 0); cbn.
  - eexists. split; [reflexivity|]. cbn.
    split; [reflexivity|]. split; [|reflexivity].
    rewrite !insert_insert_eq. now apply delete_insert_id.
  - rewrite lookup_insert_eq.
    eexists. split; [reflexivity|]. cbn.
    split; [reflexivity|]. split.
    + rewrite !insert_insert_eq. now apply delete_insert_id.
    + now apply delete_insert_id.
Qed.

(** ** Teardown, exactly *)

Lemma jsFreeRuntime_world (w : World) (rt : ptr) (r : JSRuntime) :
  runtimes w !! rt = Some r ->
  rt_opaque r = NULL \/ is_Some (rto_heap w !! rt_opaque r) ->
  jsFreeRuntime rt w
  = Ok tt (mkWorld
             (if decide (rt_opaque r = NULL) then rto_heap w
              else delete (rt_opaque r) (rto_heap w))
             (boxes w)
             (delete rt (runtimes w))
             (contexts w)
             (fold_left (fun m p => delete p m) (objects_of rt w) (objects w))
             (js_class_id_alloc w)
             (dispatched w)).
Proof.
  intros Hrt Hslot. unfold jsFreeRuntime.
  rewrite (bind_ok _ _ _ _ _ (JS_GetRuntimeOpaque_live _ _ _ Hrt)).
  set (h1 := if decide (rt_opaque r = NULL) then rto_heap w
             else delete (rt_opaque r) (rto_heap w)).
  set (w1 := mkWorld h1 (boxes w) (runtimes w) (contexts w) (objects w)
                     (js_class_id_alloc w) (dispatched w)).
  assert ((if decide (rt_opaque r = NULL) then ret tt
           else _CPP_DELETE_RT (rt_opaque r)) w = Ok tt w1) as Hdel.
  { subst w1 h1. destruct (decide (rt_opaque r = NULL)) as [|Hne].
    - unfold ret. now rewrite world_eta.
    - destruct Hslot as [|[op Hop]]; [contradiction|].
      unfold _CPP_DELETE_RT. rewrite decide_False by assumption.
      now rewrite (bind_deref _ _ _ _ _ Hop). }
  rewrite (bind_ok _ _ _ _ _ Hdel).
  set (r0 := set_rt_opaque NULL r).
  set (w2 := with_runtimes <[rt := r0]> w1).
  assert (JS_SetRuntimeOpaque rt NULL w1 = Ok tt w2) as Hset.
  { unfold JS_SetRuntimeOpaque. now rewrite (bind_deref _ _ _ _ r) by exact Hrt. }
  rewrite (bind_ok _ _ _ _ _ Hset).
  assert (runtimes w2 !! rt = Some r0) as Hrt2 by (cbn; apply lookup_insert_eq).
  unfold JS_FreeRuntime. rewrite (bind_deref _ _ _ _ _ Hrt2).
  assert (free_objects rt (objects_of rt w2) w2
          = Ok tt (with_objects
                     (fun m => fold_left (fun m p => delete p m) (objects_of rt w2) m) w2))
    as Hfree.
  { apply (free_objects_null rt r0); [exact Hrt2 | reflexivity | apply NoDup_objects_of |].
    intros p Hp. apply elem_of_objects_of in Hp as (o & Ho & _). now exists o. }
  rewrite (bind_ok (fun w => free_objects rt (objects_of rt w) w) _ _ _ _ Hfree).
  unfold modify, with_runtimes, with_objects. cbn.
  now rewrite delete_insert_eq.
Qed.

(** X9. Create, then destroy.  In a world whose engine cells all belong
    to live runtimes, creating a runtime and tearing it down at once
    gives back the very world it started from: the runtime context is
    freed, nothing is collected and no channel call is made. *)
Theorem new_then_free_runtime_restores (w : World) (ch : JSChannel) (tmo : Z) :
  objects_owned w ->
  (let* rt := jsNewRuntime ch tmo in jsFreeRuntime rt) w = Ok tt w.
Proof.
  intros Hown.
  destruct (jsNewRuntime_spec w ch tmo)
    as (rt & c & w' & Hnew & Hrt0 & Hc0 & Hrtf & Hcf & Hrt & Hc & Hrts & Hcs
        & Hb & Hx & Ho & Hid & Hd).
  rewrite (bind_ok _ _ _ _ _ Hnew).
  rewrite (jsFreeRuntime_world w' rt _ Hrt) by (right; cbn; rewrite Hc; eauto).
  cbn [rt_opaque]. rewrite decide_False by exact Hc0.
  assert (objects_of rt w' = []) as ->.
  { apply elem_of_nil_inv. intros p Hp.
    apply elem_of_objects_of in Hp as (o & Hpo & Hort). rewrite Ho in Hpo.
    destruct (Hown p o Hpo) as [r' Hr']. congruence. }
  cbn [fold_left]. f_equal.
  apply world_ext; [| exact Hb | | exact Hx | exact Ho | exact Hid | exact Hd].
  - apply map_eq. intros c'. destruct (decide (c' = c)) as [->|Hne].
    + now rewrite lookup_delete_eq.
    + rewrite lookup_delete_ne by congruence. now apply Hcs.
  - apply map_eq. intros rt'. destruct (decide (rt' = rt)) as [->|Hne].
    + now rewrite lookup_delete_eq.
    + rewrite lookup_delete_ne by congruence. now apply Hrts.
Qed.

(** X10. Teardown is local, and it frees no box.  [jsFreeRuntime] leaves
    every other runtime, every other runtime context and every engine
    cell of another runtime as they were.  It also leaves every box and
    every context handle allocated, those of the runtime torn down
    included, and makes no channel call. *)
Theorem jsFreeRuntime_is_local (w : World) (rt : ptr) (r : JSRuntime) :
  runtimes w !! rt = Some r ->
  rt_opaque r = NULL \/ is_Some (rto_heap w !! rt_opaque r) ->
  exists w',
    jsFreeRuntime rt w = Ok tt w'
    /\ (forall rt', rt' <> rt -> runtimes w' !! rt' = runtimes w !! rt')
    /\ (forall c, c <> rt_opaque r -> rto_heap w' !! c = rto_heap w !! c)
    /\ (forall p o, objects w !! p = Some o -> obj_rt o <> rt -> objects w' !! p = Some o)
    /\ boxes w' = boxes w
    /\ contexts w' = contexts w
    /\ js_class_id_alloc w' = js_class_id_alloc w
    /\ dispatched w' = dispatched w.
Proof.
  intros Hrt Hslot. eexists. split; [now apply (jsFreeRuntime_world w rt r)|]. cbn.
  split; [|split; [|split; [|now repeat split]]].
  - intros rt' Hne. now apply lookup_delete_ne.
  - intros c Hne. destruct (decide (rt_opaque r = NULL)); [reflexivity|].
    now apply lookup_delete_ne.
  - intros p o Ho Hne. rewrite lookup_fold_delete, decide_False; [exact Ho|].
    intros Hin. apply elem_of_objects_of in Hin as (o' & Ho' & Hrt').
    congruence.
Qed.

(** ** Registration is per runtime *)

(** X11. A successful [jsNewClass] returns the current value of the
    process-wide counter and registers that identifier, under the given
    name and with the bridge finalizer, in the runtime of the context and
    in no other: the other classes of that runtime, its slot, and every
    other runtime are left as they were, and no channel call is made. *)
Theorem jsNewClass_registers_in_own_runtime (w : World) (ctx rt : ptr)
    (r : JSRuntime) (name : string) :
  contexts w !! ctx = Some rt ->
  runtimes w !! rt = Some r ->
  rt_oom r = false ->
  class_array r !! js_class_id_alloc w = None ->
  exists w' r',
    jsNewClass ctx name w = Ok (js_class_id_alloc w) w'
    /\ runtimes w' !! rt = Some r'
    /\ class_array r' !! js_class_id_alloc w
       = Some (mkClassDef name (Some fn_jsNewClass_finalizer))
    /\ JS_IsRegisteredClass rt (js_class_id_alloc w) w' = Ok true w'
    /\ (forall cid, cid <> js_class_id_alloc w ->
          class_array r' !! cid = class_array r !! cid)
    /\ rt_opaque r' = rt_opaque r
    /\ (forall rt', rt' <> rt -> runtimes w' !! rt' = runtimes w !! rt')
    /\ js_class_id_alloc w' = wrap32 (js_class_id_alloc w + 1)
    /\ dispatched w' = dispatched w.
Proof.
  intros Hctx Hrt Hoom Hfree.
  eexists _, _. split; [now apply (jsNewClass_registers w ctx rt r)|].
  cbn. split; [apply lookup_insert_eq|].
  split; [cbn; apply lookup_insert_eq|].
  split.
  { unfold JS_IsRegisteredClass, bind, deref, ret. cbn. rewrite lookup_insert_eq. cbn.
    rewrite bool_decide_eq_true_2; [reflexivity|].
    rewrite lookup_insert_eq. eauto. }
  split; [intros cid Hne; cbn; now apply lookup_insert_ne|].
  split; [reflexivity|].
  split; [intros rt' Hne; now apply lookup_insert_ne|].
  now split.
Qed.

(** ** String coercion *)

Lemma js_begin_call_null (w : World) (rt : ptr) (r : JSRuntime) (now : Z) :
  runtimes w !! rt = Some r ->
  rt_opaque r = NULL ->
  js_begin_call rt now w = Ok tt w.
Proof.
  intros Hrt Hc. unfold js_begin_call, JS_UpdateStackTop.
  unfold bind at 1. rewrite (bind_deref _ _ _ _ _ Hrt). cbn [ret].
  rewrite (bind_ok _ _ _ _ _ (JS_GetRuntimeOpaque_live _ _ _ Hrt)).
  now rewrite decide_True by assumption.
Qed.

(** X12. [jsToCString] is an entry into the engine like evaluation: with
    a runtime context attached it runs the conversion of the boxed value
    on the world in which the call start is the clock reading; the box is
    read after the stamp.  Without a runtime context it runs the
    conversion on the world as it is. *)
Theorem jsToCString_stamps_call_start
    (JS_ToCString : ptr -> JSValue -> M (option string))
    (w : World) (ctx rt val : ptr) (r : JSRuntime) (v : JSValue) (now : Z) :
  contexts w !! ctx = Some rt ->
  runtimes w !! rt = Some r ->
  boxes w !! val = Some v ->
  (forall op,
      rt_opaque r <> NULL ->
      rto_heap w !! rt_opaque r = Some op ->
      jsToCString JS_ToCString ctx val now w
      = JS_ToCString ctx v (with_rto_heap <[rt_opaque r := set_start now op]> w))
  /\ (rt_opaque r = NULL ->
      jsToCString JS_ToCString ctx val now w = JS_ToCString ctx v w).
Proof.
  intros Hctx Hrt Hbox. unfold jsToCString, JS_GetRuntime.
  rewrite (bind_deref _ _ _ _ _ Hctx). split.
  - intros op Hc Hop.
    rewrite (bind_ok _ _ _ _ _ (js_begin_call_stamps w rt r op now Hrt Hc Hop)).
    now rewrite (bind_deref _ _ _ _ v) by exact Hbox.
  - intros Hc. rewrite (bind_ok _ _ _ _ _ (js_begin_call_null w rt r now Hrt Hc)).
    now rewrite (bind_deref _ _ _ _ _ Hbox).
Qed.

(** ** Module loading, when the host has the source *)

(** X15. When the channel answers a MODULE request with source text, the
    loader hands that text, its length, the module name and the flags
    "module, compile only" to the evaluator, after the one channel call.
    If the evaluator returns the exception marker the loader returns the
    null module definition.  If it returns a module that is referenced
    elsewhere, the loader returns the pointer of that module and gives up
    exactly one reference to it. *)
Theorem module_loader_compiles_source
    (JS_Eval : ptr -> string -> Z -> string -> Z -> M JSValue)
    (w w2 : World) (ctx : ptr) (module_name : string) (opaque : ptr)
    (op : RuntimeOpaque) (s : string) (func_val : JSValue) :
  rto_heap w !! opaque = Some op ->
  channel op ctx JSChannelType_MODULE (Arg_module_name module_name) = Ret_cstr s ->
  JS_Eval ctx s (Z.of_nat (String.length s)) module_name
          (Z.lor JS_EVAL_TYPE_MODULE JS_EVAL_FLAG_COMPILE_ONLY)
          (with_dispatched
             (fun l => l ++ [mkDispatch ctx JSChannelType_MODULE (Arg_module_name module_name)])
             w)
  = Ok func_val w2 ->
  (func_val = JS_EXCEPTION ->
   __my_js_module_loader JS_Eval ctx module_name opaque w = Ok NULL w2)
  /\ (forall m o,
         func_val = JS_MODULE m ->
         objects w2 !! m = Some o ->
         2 <= ref_count o ->
         __my_js_module_loader JS_Eval ctx module_name opaque w
         = Ok m (with_objects <[m := set_ref_count (ref_count o - 1) o]> w2)).
Proof.
  intros Hop Hsrc Heval.
  assert (__my_js_module_loader JS_Eval ctx module_name opaque w
          = (if JS_IsException func_val then ret NULL
             else JS_FreeValue ctx func_val ;;; ret (JS_VALUE_GET_PTR func_val)) w2)
    as ->.
  { unfold __my_js_module_loader. rewrite (bind_deref _ _ _ _ _ Hop).
    unfold call_channel at 1. unfold bind at 1. rewrite Hsrc.
    now rewrite (bind_ok _ _ _ _ _ Heval). }
  split.
  - intros ->. reflexivity.
  - intros m o -> Ho Hrc. cbn [JS_IsException JS_VALUE_GET_PTR].
    unfold JS_FreeValue. cbn [JS_VALUE_HAS_REF_COUNT JS_VALUE_GET_PTR].
    unfold dec_ref_count, bind, deref, modify, ret. cbn. rewrite Ho. cbn.
    replace (ref_count o - 1 <=? 0) with false by (symmetry; apply Z.leb_gt; lia).
    reflexivity.
Qed.

(** ** These theorems at work on the sample worlds *)

Lemma abort_is_one_shot_witness :
  js_interrupt_handler 1000000 1%N 1%N 9000000000
    (world_after (js_interrupt_handler 1000000 1%N 1%N 2001001) w_running)
  = Ok 0 (world_after (js_interrupt_handler 1000000 1%N 1%N 2001001) w_running).
Proof.
  apply (abort_is_one_shot 1000000 w_running _ 1%N 1%N 2001001 9000000000).
  vm_compute. reflexivity.
Defined.

Lemma begin_call_arms_monitor_witness :
  exists ws,
    js_begin_call 1%N 1000 w_ready = Ok tt ws
    /\ (1000 = 0 \/ timeout op_ready = 0 ->
        js_interrupt_handler 1000000 1%N (rt_opaque rt_ready) 2001001 ws = Ok 0 ws)
    /\ (exists res w',
          js_interrupt_handler 1000000 1%N (rt_opaque rt_ready) 2001001 ws = Ok res w'
          /\ (res = 1 <-> 2001001 - 1000 > Z.quot (timeout op_ready * 1000000) 1000)
          /\ (res = 1 ->
              w' = with_rto_heap <[rt_opaque rt_ready := set_start 0 op_ready]> w_ready)
          /\ (res <> 1 -> res = 0 /\ w' = ws)).
Proof.
  destruct (begin_call_arms_monitor 1000000 w_ready 1%N rt_ready op_ready 1000 2001001)
    as (ws & Hb & Hidle & Harmed).
  - vm_compute. reflexivity.
  - discriminate.
  - vm_compute. reflexivity.
  - exists ws. split; [exact Hb|]. split; [exact Hidle|].
    apply Harmed; [discriminate | discriminate | |]; unfold fits_int64; cbn; lia.
Defined.

Lemma attach_then_read_witness :
  exists e,
    jsIsException 1%N (world_after (jsNewObjectClass 1%N 1%N 77%N) w_ready)
    = Ok e (world_after (jsNewObjectClass 1%N 1%N 77%N) w_ready)
    /\ (e = 0 ->
        jsGetObjectOpaque 1%N 1%N (world_after (jsNewObjectClass 1%N 1%N 77%N) w_ready)
        = Ok 77%N (world_after (jsNewObjectClass 1%N 1%N 77%N) w_ready)
        /\ forall cid', cid' <> 1%N ->
             jsGetObjectOpaque 1%N cid' (world_after (jsNewObjectClass 1%N 1%N 77%N) w_ready)
             = Ok NULL (world_after (jsNewObjectClass 1%N 1%N 77%N) w_ready))
    /\ (e <> 0 -> forall cid',
          jsGetObjectOpaque 1%N cid' (world_after (jsNewObjectClass 1%N 1%N 77%N) w_ready)
          = Ok NULL (world_after (jsNewObjectClass 1%N 1%N 77%N) w_ready)).
Proof.
  apply (attach_then_read w_ready _ 1%N 1%N 77%N 1%N).
  vm_compute. reflexivity.
Defined.

Lemma dup_then_free_restores_witness :
  (let* b := jsDupValue 1%N 1%N in jsFreeValue 1%N b (-1)) w_attached = Ok tt w_attached
  /\ (let* b := jsDupValueRT 1%N 1%N in jsFreeValueRT 1%N b (-1)) w_attached
     = Ok tt w_attached.
Proof.
  apply (dup_then_free_restores w_attached 1%N 1%N 1%N (JS_OBJECT 1%N) (-1)).
  - vm_compute. reflexivity.
  - intros _. exists (mkObject 1%N 1 1%N 77%N). split; [vm_compute; reflexivity | cbn; lia].
  - discriminate.
Defined.

Lemma register_attach_release_witness :
  exists w',
    (let* cid := jsNewClass 1%N "Point" in
     let* b := jsNewObjectClass 1%N cid 77%N in
     jsFreeValue 1%N b 1) w_ready = Ok tt w'
    /\ dispatched w'
       = dispatched w_ready ++ [mkDispatch 1%N JSChannelType_FREE_OBJECT (Arg_opaque 77%N)]
    /\ objects w' = objects w_ready
    /\ boxes w' = (if 1 =? 0
                   then <[malloc (boxes w_ready) := JS_OBJECT (malloc (objects w_ready))]>
                          (boxes w_ready)
                   else boxes w_ready).
Proof.
  apply (register_attach_release w_ready 1%N 1%N rt_ready op_ready "Point" 77%N 1);
    try (vm_compute; reflexivity).
  discriminate.
Defined.

Lemma new_then_free_runtime_restores_witness :
  (let* rt := jsNewRuntime silent_channel 2000 in jsFreeRuntime rt) w_ready = Ok tt w_ready.
Proof.
  apply (new_then_free_runtime_restores w_ready silent_channel 2000).
  intros p o H.
  assert (objects w_ready = ∅) as E by (vm_compute; reflexivity).
  rewrite E, lookup_empty in H. discriminate.
Defined.

Lemma jsFreeRuntime_is_local_witness :
  exists w',
    jsFreeRuntime 2%N w_pair = Ok tt w'
    /\ (forall rt', rt' <> 2%N -> runtimes w' !! rt' = runtimes w_pair !! rt')
    /\ (forall c, c <> rt_opaque rt_second -> rto_heap w' !! c = rto_heap w_pair !! c)
    /\ (forall p o, objects w_pair !! p = Some o -> obj_rt o <> 2%N ->
          objects w' !! p = Some o)
    /\ boxes w' = boxes w_pair
    /\ contexts w' = contexts w_pair
    /\ js_class_id_alloc w' = js_class_id_alloc w_pair
    /\ dispatched w' = dispatched w_pair.
Proof.
  apply (jsFreeRuntime_is_local w_pair 2%N rt_second).
  - vm_compute. reflexivity.
  - right. exists (mkRuntimeOpaque silent_channel 50 0). vm_compute. reflexivity.
Defined.

Lemma jsNewClass_registers_in_own_runtime_witness :
  exists w' r',
    jsNewClass 1%N "Point" w_ready = Ok (js_class_id_alloc w_ready) w'
    /\ runtimes w' !! 1%N = Some r'
    /\ class_array r' !! js_class_id_alloc w_ready
       = Some (mkClassDef "Point" (Some fn_jsNewClass_finalizer))
    /\ JS_IsRegisteredClass 1%N (js_class_id_alloc w_ready) w' = Ok true w'
    /\ (forall cid, cid <> js_class_id_alloc w_ready ->
          class_array r' !! cid = class_array rt_ready !! cid)
    /\ rt_opaque r' = rt_opaque rt_ready
    /\ (forall rt', rt' <> 1%N -> runtimes w' !! rt' = runtimes w_ready !! rt')
    /\ js_class_id_alloc w' = wrap32 (js_class_id_alloc w_ready + 1)
    /\ dispatched w' = dispatched w_ready.
Proof.
  apply (jsNewClass_registers_in_own_runtime w_ready 1%N 1%N rt_ready "Point");
    vm_compute; reflexivity.
Defined.

Lemma jsToCString_stamps_call_start_witness :
  jsToCString idle_to_cstring 1%N 1%N 1000 w_attached
  = idle_to_cstring 1%N (JS_OBJECT 1%N)
      (with_rto_heap <[1%N := set_start 1000 op_ready]> w_attached)
  /\ jsToCString idle_to_cstring 1%N 1%N 1000 w_detached
     = idle_to_cstring 1%N (JS_OBJECT 1%N) w_detached.
Proof.
  split.
  - apply (jsToCString_stamps_call_start idle_to_cstring w_attached 1%N 1%N 1%N
             rt_attached (JS_OBJECT 1%N) 1000);
      try (vm_compute; reflexivity). discriminate.
  - apply (jsToCString_stamps_call_start idle_to_cstring w_detached 1%N 1%N 1%N
             (set_rt_opaque NULL rt_attached) (JS_OBJECT 1%N) 1000);
      vm_compute; reflexivity.
Defined.

Lemma module_loader_compiles_source_witness :
  __my_js_module_loader stub_compile 1%N "lib" 1%N w_source
  = Ok 1%N
       (with_objects <[1%N := set_ref_count (2 - 1) (mkObject 1%N 2 0%N NULL)]>
          (world_after
             (stub_compile 1%N "export default 1" 16 "lib"
                (Z.lor JS_EVAL_TYPE_MODULE JS_EVAL_FLAG_COMPILE_ONLY))
             (with_dispatched
                (fun l => l ++ [mkDispatch 1%N JSChannelType_MODULE (Arg_module_name "lib")])
                w_source))).
Proof.
  apply (module_loader_compiles_source stub_compile w_source _ 1%N "lib" 1%N
           (mkRuntimeOpaque source_channel 0 0) "export default 1" (JS_MODULE 1%N));
    try (vm_compute; reflexivity).
  cbn. lia.
Defined.
